(** * Lead scoring of the headless CMS backend

    A shallow embedding of [src/services/leadScoring.ts] and of the admin
    lead routes that read or update leads, with the properties of the lead
    score proved over it.

    - JavaScript strings are [string]; the functions below compare strings
      and take their length, nothing else.  An optional field
      ([phone?: string]) is an [option string], [None] standing for
      [undefined].
    - [Product.price] is a JavaScript number, that is an IEEE 754 binary64
      value: a primitive [float].  Scores are small integers, on which the
      arithmetic of binary64 is exact: they are [Z].
    - The file-backed store is a record of collections, each a list in the
      order [db.getAll] returns it. *)

From Stdlib Require Import ZArith PrimFloat.
From stdpp Require Import base tactics option list strings gmap fin_maps.

Local Open Scope Z_scope.

(** ** JavaScript values *)

Module JS.

(** Truthiness of an optional string: [undefined] and [""] are falsy. *)
Definition truthy (v : option string) : bool :=
  match v with
  | Some s => negb (bool_decide (s = ""))
  | None => false
  end.

(** Truthiness of a number: [0], [-0] and [NaN] are falsy. *)
Definition truthyNum (x : float) : bool :=
  negb (PrimFloat.eqb x 0%float) && PrimFloat.eqb x x.

(** [a || b] on optional strings. *)
Definition or (a b : option string) : option string :=
  if truthy a then a else b.

(** [a >= b] and [a > b] on numbers; both are false when either is NaN. *)
Definition geq (a b : float) : bool := PrimFloat.leb b a.

Definition gt (a b : float) : bool := PrimFloat.ltb b a.

(** [s.length], read only where [s] is known to be a string. *)
Definition length (v : option string) : nat :=
  match v with
  | Some s => String.length s
  | None => 0
  end.

End JS.

(** ** Data model ([src/types/index.ts]) *)

(** [Product]: of the fields of the interface the scorer reads [id] and
    [price] only; the others, which no function below reads, are left out. *)
Module Product.

Record t := mk {
  id : string;
  name : string;
  price : float
}.

End Product.

Module WishlistItem.

Record t := mk {
  id : string;
  wishlistId : string;
  productId : string;
  notes : option string;
  addedAt : string
}.

End WishlistItem.

Module Wishlist.

Record t := mk {
  id : string;
  name : string;
  email : option string;
  customerId : option string;
  shareToken : string;
  items : list WishlistItem.t;
  createdAt : string;
  updatedAt : string
}.

End Wishlist.

(** [Lead]: [source] and [status] are string enums, plain strings at run
    time; [score] is integer valued. *)
Module Lead.

Record t := mk {
  id : string;
  name : string;
  email : string;
  phone : option string;
  source : string;
  status : string;
  score : Z;
  message : option string;
  wishlistId : option string;
  customerId : option string;
  utmSource : option string;
  utmMedium : option string;
  utmCampaign : option string;
  referrer : option string;
  ipAddress : option string;
  userAgent : option string;
  assignedTo : option string;
  createdAt : string;
  updatedAt : string;
  contactedAt : option string;
  convertedAt : option string
}.

Definition set_score (v : Z) (l : t) : t :=
  mk (id l) (name l) (email l) (phone l) (source l) (status l) v
     (message l) (wishlistId l) (customerId l) (utmSource l) (utmMedium l)
     (utmCampaign l) (referrer l) (ipAddress l) (userAgent l) (assignedTo l)
     (createdAt l) (updatedAt l) (contactedAt l) (convertedAt l).

Definition set_utmMedium (v : option string) (l : t) : t :=
  mk (id l) (name l) (email l) (phone l) (source l) (status l) (score l)
     (message l) (wishlistId l) (customerId l) (utmSource l) v
     (utmCampaign l) (referrer l) (ipAddress l) (userAgent l) (assignedTo l)
     (createdAt l) (updatedAt l) (contactedAt l) (convertedAt l).

End Lead.

(** The string enum [LeadStatus].  An enum object maps member names to their
    values; reading a member it does not have yields [undefined]. *)
Definition LeadStatus : gmap string string :=
  list_to_map
    [("NEW", "NEW"); ("CONTACTED", "CONTACTED"); ("SCHEDULED", "SCHEDULED");
     ("CONVERTED", "CONVERTED"); ("LOST", "LOST")].

(** The collections of [Database] that the lead routes and the scorer
    touch; [db.getAll('leads')] is [leads db]. *)
Record Database := mkDatabase {
  products : list Product.t;
  leads : list Lead.t
}.

(** ** The scorer ([src/services/leadScoring.ts]) *)

(** Lines 32-35: the [reduce] over the wishlist items. [product?.price || 0]
    is [0] for a product that is not found and for a falsy price. *)
Definition wishlistTotal (products : list Product.t) (wishlist : Wishlist.t)
  : float :=
  fold_left
    (fun total item =>
       let product :=
         find (fun p => bool_decide (Product.id p = WishlistItem.productId item))
              products in
       (total +
        match product with
        | Some p => if JS.truthyNum (Product.price p) then Product.price p else 0
        | None => 0
        end)%float)
    (Wishlist.items wishlist) 0%float.

(** Lines 38-43: the value tiers, as a step on the running [score]. *)
Definition scoreWishlistValue (wishlistTotal : float) (score : Z) : Z :=
  if JS.geq wishlistTotal 10000 then score + 30
  else if JS.geq wishlistTotal 5000 then score + 25
  else if JS.geq wishlistTotal 2000 then score + 20
  else if JS.geq wishlistTotal 1000 then score + 15
  else if JS.geq wishlistTotal 500 then score + 10
  else if JS.gt wishlistTotal 0 then score + 5
  else score.

(** Line 28: [Math.min(wishlist.items.length * 10, 40)]. *)
Definition itemCountPoints (items : list WishlistItem.t) : Z :=
  Z.min (Z.of_nat (length items) * 10) 40.

(** Lines 27-44. *)
Definition scoreWishlist (db : Database) (wishlist : option Wishlist.t)
    (score : Z) : Z :=
  match wishlist with
  | Some w =>
      if bool_decide (0 < length (Wishlist.items w))%nat then
        let score := score + itemCountPoints (Wishlist.items w) in
        let products := products db in
        let wishlistTotal := wishlistTotal products w in
        scoreWishlistValue wishlistTotal score
      else score
  | None => score
  end.

(** Lines 47-49. *)
Definition scorePhone (lead : Lead.t) (score : Z) : Z :=
  if JS.truthy (Lead.phone lead) then score + 10 else score.

(** Lines 52-54. *)
Definition scoreMessage (lead : Lead.t) (score : Z) : Z :=
  if JS.truthy (Lead.message lead)
     && bool_decide (20 < JS.length (Lead.message lead))%nat
  then score + 10 else score.

(** Lines 57-59. *)
Definition scoreSource (lead : Lead.t) (score : Z) : Z :=
  if bool_decide (Lead.source lead = "WISHLIST") then score + 5 else score.

(** Lines 62-64. *)
Definition scoreUtm (lead : Lead.t) (score : Z) : Z :=
  if JS.truthy (Lead.utmSource lead) || JS.truthy (Lead.utmCampaign lead)
  then score + 5 else score.

(** Lines 70-72. *)
Definition scoreAccount (resolvedCustomerId : option string) (score : Z) : Z :=
  if JS.truthy resolvedCustomerId then score + 8 else score.

(** Lines 78-81: the predicate of [siblingLeads]. *)
Definition isSibling (lead : Lead.t) (resolvedCustomerId : option string)
    (l : Lead.t) : bool :=
  negb (bool_decide (Lead.id l = Lead.id lead))
  && (JS.truthy resolvedCustomerId
        && bool_decide (Lead.customerId l = resolvedCustomerId)
      || bool_decide (Lead.email l = Lead.email lead)).

(** Lines 92-95: the predicate of [hasConverted]. *)
Definition isConvertedSibling (lead : Lead.t)
    (resolvedCustomerId : option string) (l : Lead.t) : bool :=
  negb (bool_decide (Lead.id l = Lead.id lead))
  && bool_decide (Lead.status l = "CONVERTED")
  && (JS.truthy resolvedCustomerId
        && bool_decide (Lead.customerId l = resolvedCustomerId)
      || bool_decide (Lead.email l = Lead.email lead)).

(** Lines 75-86. *)
Definition scoreSiblings (db : Database) (lead : Lead.t)
    (resolvedCustomerId : option string) (score : Z) : Z :=
  if JS.truthy resolvedCustomerId || JS.truthy (Some (Lead.email lead)) then
    let allLeads := leads db in
    let siblingLeads := filter (fun l => isSibling lead resolvedCustomerId l = true) allLeads in
    if bool_decide (0 < length siblingLeads)%nat
    then score + Z.min (Z.of_nat (length siblingLeads) * 3) 7
    else score
  else score.

(** Lines 89-100. *)
Definition scoreConverted (db : Database) (lead : Lead.t)
    (resolvedCustomerId : option string) (score : Z) : Z :=
  if JS.truthy resolvedCustomerId || JS.truthy (Some (Lead.email lead)) then
    let allLeads := leads db in
    let hasConverted := existsb (isConvertedSibling lead resolvedCustomerId) allLeads in
    if hasConverted then score + 10 else score
  else score.

(** [calculateLeadScore(lead, wishlist?, customerId?)], lines 23-103; [db]
    is the state of the store the function reads. *)
Definition calculateLeadScore (db : Database) (lead : Lead.t)
    (wishlist : option Wishlist.t) (customerId : option string) : Z :=
  let score := 0 in
  let score := scoreWishlist db wishlist score in
  let score := scorePhone lead score in
  let score := scoreMessage lead score in
  let score := scoreSource lead score in
  let score := scoreUtm lead score in
  let resolvedCustomerId := JS.or customerId (Lead.customerId lead) in
  let score := scoreAccount resolvedCustomerId score in
  let score := scoreSiblings db lead resolvedCustomerId score in
  let score := scoreConverted db lead resolvedCustomerId score in
  Z.min score 100.

(** [getLeadCategory(score)], lines 108-112. *)
Definition getLeadCategory (score : Z) : string :=
  if bool_decide (61 <= score) then "Hot Lead"
  else if bool_decide (31 <= score) then "Warm Lead"
  else "Cold Lead".

(** ** The breakdown reporter ([src/services/leadScoring.ts])

    [breakdown] is a JavaScript object used as a map from labels to points:
    a [gmap string Z]; [breakdown['k'] = v] is [<["k" := v]> breakdown]. *)

(** Lines 138-143. *)
Definition breakdownWishlistValue (wishlistTotal : float)
    (breakdown : gmap string Z) : gmap string Z :=
  if JS.geq wishlistTotal 10000 then <["High Value Wishlist" := 30]> breakdown
  else if JS.geq wishlistTotal 5000 then <["High Value Wishlist" := 25]> breakdown
  else if JS.geq wishlistTotal 2000 then <["Medium Value Wishlist" := 20]> breakdown
  else if JS.geq wishlistTotal 1000 then <["Medium Value Wishlist" := 15]> breakdown
  else if JS.geq wishlistTotal 500 then <["Low Value Wishlist" := 10]> breakdown
  else if JS.gt wishlistTotal 0 then <["Low Value Wishlist" := 5]> breakdown
  else breakdown.

(** Lines 129-144. *)
Definition breakdownWishlist (db : Database) (wishlist : option Wishlist.t)
    (breakdown : gmap string Z) : gmap string Z :=
  match wishlist with
  | Some w =>
      if bool_decide (0 < length (Wishlist.items w))%nat then
        let breakdown :=
          <["Wishlist Items" := itemCountPoints (Wishlist.items w)]> breakdown in
        let products := products db in
        let wishlistTotal := wishlistTotal products w in
        breakdownWishlistValue wishlistTotal breakdown
      else breakdown
  | None => breakdown
  end.

(** Lines 146-148. *)
Definition breakdownPhone (lead : Lead.t) (breakdown : gmap string Z)
  : gmap string Z :=
  if JS.truthy (Lead.phone lead) then <["Phone Provided" := 10]> breakdown
  else breakdown.

(** Lines 150-152. *)
Definition breakdownMessage (lead : Lead.t) (breakdown : gmap string Z)
  : gmap string Z :=
  if JS.truthy (Lead.message lead)
     && bool_decide (20 < JS.length (Lead.message lead))%nat
  then <["Detailed Message" := 10]> breakdown else breakdown.

(** Lines 154-156. *)
Definition breakdownSource (lead : Lead.t) (breakdown : gmap string Z)
  : gmap string Z :=
  if bool_decide (Lead.source lead = "WISHLIST")
  then <["Wishlist Submission" := 5]> breakdown else breakdown.

(** Lines 158-160. *)
Definition breakdownUtm (lead : Lead.t) (breakdown : gmap string Z)
  : gmap string Z :=
  if JS.truthy (Lead.utmSource lead) || JS.truthy (Lead.utmCampaign lead)
  then <["Tracked Campaign" := 5]> breakdown else breakdown.

(** Lines 165-167. *)
Definition breakdownAccount (resolvedCustomerId : option string)
    (breakdown : gmap string Z) : gmap string Z :=
  if JS.truthy resolvedCustomerId then <["Customer Account" := 8]> breakdown
  else breakdown.

(** Lines 169-190. *)
Definition breakdownHistory (db : Database) (lead : Lead.t)
    (resolvedCustomerId : option string) (breakdown : gmap string Z)
  : gmap string Z :=
  if JS.truthy resolvedCustomerId || JS.truthy (Some (Lead.email lead)) then
    let allLeads := leads db in
    let siblingCount :=
      length (filter (fun l => isSibling lead resolvedCustomerId l = true) allLeads) in
    let breakdown :=
      if bool_decide (0 < siblingCount)%nat
      then <["Repeat Customer" := Z.min (Z.of_nat siblingCount * 3) 7]> breakdown
      else breakdown in
    let hasConverted :=
      existsb (isConvertedSibling lead resolvedCustomerId) allLeads in
    if hasConverted then <["Previous Conversion" := 10]> breakdown
    else breakdown
  else breakdown.

(** [getScoreBreakdown(lead, wishlist?)], lines 126-193. *)
Definition getScoreBreakdown (db : Database) (lead : Lead.t)
    (wishlist : option Wishlist.t) : gmap string Z :=
  let breakdown : gmap string Z := ∅ in
  let breakdown := breakdownWishlist db wishlist breakdown in
  let breakdown := breakdownPhone lead breakdown in
  let breakdown := breakdownMessage lead breakdown in
  let breakdown := breakdownSource lead breakdown in
  let breakdown := breakdownUtm lead breakdown in
  let resolvedCustomerId := Lead.customerId lead in
  let breakdown := breakdownAccount resolvedCustomerId breakdown in
  let breakdown := breakdownHistory db lead resolvedCustomerId breakdown in
  breakdown.

(** The sum of the values of a breakdown. *)
Definition sumValues (breakdown : gmap string Z) : Z :=
  map_fold (fun _ points acc => acc + points) 0 breakdown.

(** ** The admin lead routes ([routes/admin/leads.ts]) and the store
    ([utils/database.ts])

    Every operation of [db] reads the whole JSON file and writes it back:
    the store is explicit state, a [Database] in and a [Database] out. *)

(** [a === b] on optional strings. *)
Definition strictEq (a b : option string) : bool := bool_decide (a = b).

(** The counters of [GET /stats], lines 123-136.  [avgScore] (a division of
    numbers) and [last30Days] (which reads the clock) are left out. *)
Record LeadStats := mkLeadStats {
  total : nat;
  new : nat;
  contacted : nat;
  qualified : nat;
  scheduled : nat;
  converted : nat;
  lost : nat;
  hot : nat;
  warm : nat;
  cold : nat
}.

(** [leads.filter((l) => l.status === LeadStatus.M).length]: the member
    [M] is read from the enum object at run time. *)
Definition countStatus (member : string) (leads : list Lead.t) : nat :=
  length (filter (fun l => strictEq (Some (Lead.status l)) (LeadStatus !! member) = true)
                 leads).

Definition getLeadStats (db : Database) : LeadStats :=
  let leads := leads db in
  {| total := length leads;
     new := countStatus "NEW" leads;
     contacted := countStatus "CONTACTED" leads;
     qualified := countStatus "QUALIFIED" leads;
     scheduled := countStatus "SCHEDULED" leads;
     converted := countStatus "CONVERTED" leads;
     lost := countStatus "LOST" leads;
     hot := length (filter (fun l => 61 <= Lead.score l) leads);
     warm := length (filter (fun l => 31 <= Lead.score l /\ Lead.score l < 61) leads);
     cold := length (filter (fun l => Lead.score l < 31) leads) |}.

(** [Partial<Lead>], the type [db.update] gives its [updates]: every field
    of a lead, each optional.  A JSON body cannot hold [undefined], so a
    field that is present has a value.  A key that is not a field of a
    lead would be stored with the lead and read by none of the functions
    here; it has no place in the record. *)
Module LeadPatch.

Record t := mk {
  id : option string;
  name : option string;
  email : option string;
  phone : option string;
  source : option string;
  status : option string;
  score : option Z;
  message : option string;
  wishlistId : option string;
  customerId : option string;
  utmSource : option string;
  utmMedium : option string;
  utmCampaign : option string;
  referrer : option string;
  ipAddress : option string;
  userAgent : option string;
  assignedTo : option string;
  createdAt : option string;
  updatedAt : option string;
  contactedAt : option string;
  convertedAt : option string
}.

(** The patch without any field. *)
Definition empty : t :=
  mk None None None None None None None None None None None None None None
     None None None None None None None.

End LeadPatch.

(** [updateLeadSchema.parse(body)], lines 188-193: zod reads the four keys
    the schema declares and drops the others; it fails when [status] is
    given and is not a value of the [LeadStatus] enum. *)
Definition updateLeadSchema (body : LeadPatch.t) : option LeadPatch.t :=
  if match LeadPatch.status body with
     | Some s => bool_decide (s ∈ (map_to_list LeadStatus).*2)
     | None => true
     end
  then
    Some (LeadPatch.mk None None None None None (LeadPatch.status body) None
            None None None None None None None None None
            (LeadPatch.assignedTo body) None None
            (LeadPatch.contactedAt body) (LeadPatch.convertedAt body))
  else None.

(** [db.getById('leads', id)], [utils/database.ts] lines 133-140:
    [items.find((item) => item.id === id)]. *)
Definition getById (db : Database) (id : string) : option Lead.t :=
  snd <$> list_find (fun item => Lead.id item = id) (leads db).

(** A field of [updates] that is present, else the field of the item. *)
Definition orKeep {A} (new old : option A) : option A :=
  match new with
  | Some v => Some v
  | None => old
  end.

(** [{ ...items[index], ...updates, updatedAt: new Date().toISOString() }],
    [utils/database.ts] line 177; [now] is the clock read. *)
Definition spread (item : Lead.t) (updates : LeadPatch.t) (now : string)
  : Lead.t :=
  Lead.mk
    (default (Lead.id item) (LeadPatch.id updates))
    (default (Lead.name item) (LeadPatch.name updates))
    (default (Lead.email item) (LeadPatch.email updates))
    (orKeep (LeadPatch.phone updates) (Lead.phone item))
    (default (Lead.source item) (LeadPatch.source updates))
    (default (Lead.status item) (LeadPatch.status updates))
    (default (Lead.score item) (LeadPatch.score updates))
    (orKeep (LeadPatch.message updates) (Lead.message item))
    (orKeep (LeadPatch.wishlistId updates) (Lead.wishlistId item))
    (orKeep (LeadPatch.customerId updates) (Lead.customerId item))
    (orKeep (LeadPatch.utmSource updates) (Lead.utmSource item))
    (orKeep (LeadPatch.utmMedium updates) (Lead.utmMedium item))
    (orKeep (LeadPatch.utmCampaign updates) (Lead.utmCampaign item))
    (orKeep (LeadPatch.referrer updates) (Lead.referrer item))
    (orKeep (LeadPatch.ipAddress updates) (Lead.ipAddress item))
    (orKeep (LeadPatch.userAgent updates) (Lead.userAgent item))
    (orKeep (LeadPatch.assignedTo updates) (Lead.assignedTo item))
    (default (Lead.createdAt item) (LeadPatch.createdAt updates))
    now
    (orKeep (LeadPatch.contactedAt updates) (Lead.contactedAt item))
    (orKeep (LeadPatch.convertedAt updates) (Lead.convertedAt item)).

(** [db.update('leads', id, updates)], [utils/database.ts] lines 166-180:
    [findIndex], then the item at that index is replaced; the result is
    the new item, or [null] when no item has the id. *)
Definition update (db : Database) (id : string) (updates : LeadPatch.t)
    (now : string) : Database * option Lead.t :=
  let items := leads db in
  match list_find (fun item => Lead.id item = id) items with
  | None => (db, None)
  | Some (index, item) =>
      let item' := spread item updates now in
      (mkDatabase (products db) (<[index := item']> items), Some item')
  end.

(** What a route answers: a status code with a lead or with an error. *)
Inductive Response :=
  | JsonLead (code : Z) (lead : option Lead.t)
  | JsonError (code : Z) (error : string).

(** The handler of [PUT /:id], lines 195-214.  [body] is [req.body] as the
    handler finds it, after [validate(updateLeadSchema)]; the handler hands
    it to [db.update] as it is. *)
Definition putLead (db : Database) (id : string) (body : LeadPatch.t)
    (now : string) : Database * Response :=
  let updates := body in
  let existingLead := getById db id in
  match existingLead with
  | None => (db, JsonError 404 "Lead not found")
  | Some _ =>
      let '(db', updatedLead) := update db id updates now in
      (db', JsonLead 200 updatedLead)
  end.

(** ** The value table of the specification

    The definitions of this section follow the words of the specification,
    to be compared with the code above. *)

(** "Evaluated top-down, first match wins": the thresholds and their
    points. *)
Definition valueTiers : list (float * Z) :=
  [(10000%float, 30); (5000%float, 25); (2000%float, 20);
   (1000%float, 15); (500%float, 10)].

(** [>=10000 -> 30, >=5000 -> 25, >=2000 -> 20, >=1000 -> 15, >=500 -> 10,
    >0 -> 5, else -> 0]. *)
Definition valueStep (total : float) : Z :=
  match find (fun tier => PrimFloat.leb (fst tier) total) valueTiers with
  | Some tier => snd tier
  | None => if PrimFloat.ltb 0 total then 5 else 0
  end.

(** "Resolve each item's Product by id, sum [price] (missing product
    contributes 0)". *)
Definition resolvedPrice (products : list Product.t) (item : WishlistItem.t)
  : float :=
  match find (fun p => bool_decide (Product.id p = WishlistItem.productId item))
             products with
  | Some p => Product.price p
  | None => 0
  end.

Definition resolvedTotal (products : list Product.t)
    (items : list WishlistItem.t) : float :=
  fold_left (fun total item => (total + resolvedPrice products item)%float)
            items 0%float.

(** The prices the JSON store can hold: [JSON.stringify] writes [NaN] as
    [null] and [-0] as [0], so a stored price is a truthy number or [0]. *)
Definition storable (x : float) : Prop :=
  JS.truthyNum x = true \/ x = 0%float.

(** ** Leads up to the fields the scorer does not read *)

(** [erase l] forgets [utmMedium] and [score]: two leads with the same
    erasure differ in those two fields at most. *)
Definition erase (l : Lead.t) : Lead.t :=
  Lead.set_utmMedium None (Lead.set_score 0 l).

(** ** Sample data *)

Module Sample.

Definition ring : Product.t := Product.mk "p-ring" "Diamond ring" 6000.

Definition necklace : Product.t := Product.mk "p-necklace" "Gold necklace" 5000.

Definition bracelet : Product.t := Product.mk "p-bracelet" "Silver bracelet" 400.

Definition item (productId : string) : WishlistItem.t :=
  WishlistItem.mk "item" "w1" productId None "2025-01-01T00:00:00.000Z".

Definition wishlist (items : list WishlistItem.t) : Wishlist.t :=
  Wishlist.mk "w1" "My wishlist" None None "token" items
    "2025-01-01T00:00:00.000Z" "2025-01-01T00:00:00.000Z".

(** Four items worth 22000 in all. *)
Definition wishlist4 : Wishlist.t :=
  wishlist [item "p-ring"; item "p-necklace"; item "p-ring"; item "p-necklace"].

(** Three items worth 1200 in all. *)
Definition wishlist3 : Wishlist.t :=
  wishlist [item "p-bracelet"; item "p-bracelet"; item "p-bracelet"].

(** Two items, one of a product that is gone: 6000 in all. *)
Definition wishlist2 : Wishlist.t :=
  wishlist [item "p-ring"; item "p-gone"].

Definition lead (id email : string) (phone message : option string)
    (source status : string) (customerId utmSource : option string) : Lead.t :=
  Lead.mk id "Ann" email phone source status 0 message None customerId
    utmSource None None None None None None
    "2025-01-01T00:00:00.000Z" "2025-01-01T00:00:00.000Z" None None.

(** Phone, a message of 25 characters, wishlist source, nothing else. *)
Definition visitor : Lead.t :=
  lead "l1" "ann@example.com" (Some "+1-876-5550100")
    (Some "I would like to see these") "WISHLIST" "NEW" None None.

(** As [visitor], with a tracked campaign and a customer account. *)
Definition customer : Lead.t :=
  lead "l1" "ann@example.com" (Some "+1-876-5550100")
    (Some "I would like to see these") "WISHLIST" "NEW" (Some "c1")
    (Some "newsletter").

(** Two earlier leads of customer [c1], one of them converted. *)
Definition earlier1 : Lead.t :=
  lead "l2" "ann@work.example" None None "WEBSITE" "CONVERTED" (Some "c1") None.

Definition earlier2 : Lead.t :=
  lead "l3" "ann@home.example" None None "WEBSITE" "LOST" (Some "c1") None.

Definition catalogue : list Product.t := [ring; necklace; bracelet].

Definition db0 : Database := mkDatabase catalogue [].

Definition db1 : Database := mkDatabase catalogue [earlier1; earlier2].

End Sample.

(** ** The colour of a score ([src/services/leadScoring.ts]) *)

(** [getLeadScoreColor(score)], lines 117-121. *)
Definition getLeadScoreColor (score : Z) : string :=
  if bool_decide (61 <= score) then "red"
  else if bool_decide (31 <= score) then "yellow"
  else "blue".

(** ** The labels of the notifications *)

(** [scoreLabel] of [sendWhatsAppNotification]
    ([src/services/whatsappService.ts], line 41). *)
Definition whatsappScoreLabel (score : Z) : string :=
  if bool_decide (61 <= score) then "HOT LEAD"
  else if bool_decide (31 <= score) then "WARM LEAD"
  else "COLD LEAD".

(** [whatsappTo] of [sendWhatsAppNotification], line 44:
    [toPhone.startsWith('whatsapp:') ? toPhone : `whatsapp:${toPhone}`]. *)
Definition whatsappTo (toPhone : string) : string :=
  if String.prefix "whatsapp:" toPhone then toPhone
  else "whatsapp:" +:+ toPhone.

(** [scoreColor] of [sendLeadNotification] (the email service, line 46). *)
Definition emailScoreColor (score : Z) : string :=
  if bool_decide (61 <= score) then "#EF4444"
  else if bool_decide (31 <= score) then "#F59E0B"
  else "#3B82F6".

(** ** The public lead routes ([src/routes/public/leads.ts])

    The routes read a generated id, the clock and the request; these are
    the fields of [Req.t].  The notifications they send afterwards leave
    the store and the answer alone and are not part of the model. *)

(** [req.user], set by [optionalAuth] when a token is presented. *)
Module User.

Record t := mk {
  userId : string;
  email : string;
  role : string
}.

End User.

Module Req.

Record t := mk {
  uuid : string;
  createdAt : string;
  updatedAt : string;
  ip : option string;
  userAgent : option string
}.

End Req.

(** The body of [POST /api/leads], with the fields of [createLeadSchema]. *)
Module LeadBody.

Record t := mk {
  name : string;
  email : string;
  phone : option string;
  message : option string;
  wishlistId : option string;
  source : option string;
  utmSource : option string;
  utmMedium : option string;
  utmCampaign : option string;
  referrer : option string
}.

End LeadBody.

(** The body of [POST /api/contact], with the fields of [contactSchema]. *)
Module ContactBody.

Record t := mk {
  name : string;
  email : string;
  phone : option string;
  productId : option string;
  message : string
}.

End ContactBody.

(** [req.user?.role === 'CUSTOMER' ? req.user.userId : undefined]. *)
Definition customerIdOf (user : option User.t) : option string :=
  match user with
  | Some u =>
      if bool_decide (User.role u = "CUSTOMER") then Some (User.userId u)
      else None
  | None => None
  end.

(** [v || undefined]. *)
Definition orUndefined (v : option string) : option string := JS.or v None.

(** [db.getById('wishlists', id)], [utils/database.ts] lines 133-140:
    [items.find((item) => item.id === id)]. *)
Definition getWishlistById (wishlists : list Wishlist.t) (id : string)
  : option Wishlist.t :=
  find (fun w => bool_decide (Wishlist.id w = id)) wishlists.

(** [id ? db.getById('wishlists', id) : undefined]. *)
Definition wishlistOf (wishlists : list Wishlist.t) (id : option string)
  : option Wishlist.t :=
  match id with
  | Some i => if JS.truthy id then getWishlistById wishlists i else None
  | None => None
  end.

(** [POST /api/leads], lines 65-105: the lead as it is stored, with its
    score.  ["WEBSITE"] and ["NEW"] are the values of [LeadSource.WEBSITE]
    and [LeadStatus.NEW]. *)
Definition newLead (db : Database) (wishlists : list Wishlist.t)
    (user : option User.t) (body : LeadBody.t) (req : Req.t) : Lead.t :=
  let wishlist := wishlistOf wishlists (LeadBody.wishlistId body) in
  let customerId := customerIdOf user in
  let lead :=
    Lead.mk (Req.uuid req) (LeadBody.name body) (LeadBody.email body)
      (orUndefined (LeadBody.phone body))
      (match LeadBody.source body with
       | Some s => if JS.truthy (LeadBody.source body) then s else "WEBSITE"
       | None => "WEBSITE"
       end)
      "NEW" 0
      (orUndefined (LeadBody.message body))
      (orUndefined (LeadBody.wishlistId body))
      customerId
      (orUndefined (LeadBody.utmSource body))
      (orUndefined (LeadBody.utmMedium body))
      (orUndefined (LeadBody.utmCampaign body))
      (orUndefined (LeadBody.referrer body))
      (Req.ip req) (Req.userAgent req) None
      (Req.createdAt req) (Req.updatedAt req) None None in
  Lead.set_score (calculateLeadScore db lead wishlist customerId) lead.

(** The line feed of a template literal. *)
Definition LF : string := String (Ascii.ascii_of_nat 10) EmptyString.

(** [POST /api/contact], lines 149-170: the lead as it is stored, with its
    score.  The message is
    [productId ? `Product inquiry: ${productId}\n\n${message}` : message]. *)
Definition contactLead (db : Database) (user : option User.t)
    (body : ContactBody.t) (req : Req.t) : Lead.t :=
  let customerId := customerIdOf user in
  let lead :=
    Lead.mk (Req.uuid req) (ContactBody.name body) (ContactBody.email body)
      (orUndefined (ContactBody.phone body))
      "CONTACT_FORM" "NEW" 0
      (Some
         (match ContactBody.productId body with
          | Some productId =>
              if JS.truthy (ContactBody.productId body)
              then "Product inquiry: " +:+ productId +:+ LF +:+ LF
                   +:+ ContactBody.message body
              else ContactBody.message body
          | None => ContactBody.message body
          end))
      None customerId None None None None
      (Req.ip req) (Req.userAgent req) None
      (Req.createdAt req) (Req.updatedAt req) None None in
  Lead.set_score (calculateLeadScore db lead None customerId) lead.

(** [db.create('leads', lead)], [utils/database.ts] lines 154-163:
    [items.push(item)]. *)
Definition create (db : Database) (lead : Lead.t) : Database :=
  mkDatabase (products db) (leads db ++ [lead]).

(** What [POST /api/leads] answers with status 201. *)
Module Created.

Record t := mk {
  leadId : string;
  message : string;
  score : Z
}.

End Created.

(** What [POST /api/leads] answers: 201 with the lead, or 500 from the
    [catch] of the route. *)
Inductive PostAnswer :=
  | PostCreated (answer : Created.t)
  | PostError (code : Z) (error : string).

(** [POST /api/leads], lines 63-133: the store afterwards and the answer.
    The lead is stored first; then [await sendNotifications(lead)] returns
    or throws, which mail and message services decide: [notified] says
    which.  When it throws, the [catch] answers 500, the lead being stored
    already. *)
Definition postLead (db : Database) (wishlists : list Wishlist.t)
    (user : option User.t) (body : LeadBody.t) (req : Req.t)
    (notified : bool) : Database * PostAnswer :=
  let lead := newLead db wishlists user body req in
  let db' := create db lead in
  if notified then
    (db',
     PostCreated
       (Created.mk (Lead.id lead)
          "Thank you for your interest! We'll be in touch soon."
          (Lead.score lead)))
  else (db', PostError 500 "Failed to create lead").

(** ** More of the admin lead routes ([routes/admin/leads.ts]) *)

(** What [GET /:id] answers, lines 149-182; the notes of the lead, read
    from their own collection, are left out. *)
Inductive Detail :=
  | DetailLead (lead : Lead.t) (category : string)
      (wishlist : option Wishlist.t) (scoreBreakdown : gmap string Z)
  | DetailError (code : Z) (error : string).

Definition getLead (db : Database) (wishlists : list Wishlist.t)
    (id : string) : Detail :=
  match getById db id with
  | None => DetailError 404 "Lead not found"
  | Some lead =>
      let wishlist := wishlistOf wishlists (Lead.wishlistId lead) in
      let scoreBreakdown := getScoreBreakdown db lead wishlist in
      DetailLead lead (getLeadCategory (Lead.score lead)) wishlist
        scoreBreakdown
  end.

(** [Array.prototype.slice(start, end)] for integer arguments: a negative
    index counts from the end, and both are clamped to the array. *)
Definition slice {A} (l : list A) (start finish : Z) : list A :=
  let len := Z.of_nat (length l) in
  let k := if bool_decide (start < 0) then Z.max (len + start) 0
           else Z.min start len in
  let final := if bool_decide (finish < 0) then Z.max (len + finish) 0
               else Z.min finish len in
  take (Z.to_nat (final - k)) (drop (Z.to_nat k) l).

(** The pagination of [GET /], lines 79-84, for a [limit] and a [page]
    that [parseInt] reads as integers; [leads] is the list after the
    filters and the sort. *)
Definition paginate (leads : list Lead.t) (limitNum pageNum : Z)
  : list Lead.t :=
  let startIndex := (pageNum - 1) * limitNum in
  let endIndex := startIndex + limitNum in
  slice leads startIndex endIndex.

(** [Math.ceil(leads.length / limitNum)], line 98, for [limitNum >= 1]:
    the quotient of two such integers, rounded up. *)
Definition totalPages (leads : list Lead.t) (limitNum : Z) : Z :=
  (Z.of_nat (length leads) + limitNum - 1) / limitNum.

(** ** The customers of the admin ([src/routes/admin/customers.ts]) *)

Module Customer.

Record t := mk {
  id : string;
  email : string;
  password : string;
  firstName : string;
  lastName : string;
  phone : option string;
  isActive : bool;
  createdAt : string;
  updatedAt : string;
  lastLoginAt : option string
}.

End Customer.

(** Lines 22-24: the leads of a customer, by customer id or by email. *)
Definition customerLeads (allLeads : list Lead.t) (customer : Customer.t)
  : list Lead.t :=
  filter (fun l => Lead.customerId l = Some (Customer.id customer)
                   \/ Lead.email l = Customer.email customer) allLeads.

(** [Math.max(...scores)] for a list of integers that is not empty. *)
Definition maxOf (first : Z) (rest : list Z) : Z := fold_left Z.max rest first.

(** Lines 29-31: [customerLeads.length > 0 ? Math.max(...) : 0]. *)
Definition highestScore (allLeads : list Lead.t) (customer : Customer.t) : Z :=
  match map Lead.score (customerLeads allLeads customer) with
  | [] => 0
  | first :: rest => maxOf first rest
  end.

(** Line 33. *)
Definition hasConverted (allLeads : list Lead.t) (customer : Customer.t)
  : bool :=
  existsb (fun l => bool_decide (Lead.status l = "CONVERTED"))
          (customerLeads allLeads customer).

(** [GET /:id], lines 141-143: [totalValue] of a wishlist of the customer;
    the enriched item carries the product found for it, if any. *)
Definition totalValue (products : list Product.t) (wishlist : Wishlist.t)
  : float :=
  let enrichedItems :=
    map (fun item =>
           (item,
            find (fun p => bool_decide (Product.id p = WishlistItem.productId item))
                 products))
        (Wishlist.items wishlist) in
  fold_left
    (fun sum item =>
       (sum +
        match snd item with
        | Some p => if JS.truthyNum (Product.price p) then Product.price p else 0
        | None => 0
        end)%float)
    enrichedItems 0%float.

(** ** Leads with another customer id *)

(** [withCustomerId c l] is [l] with [customerId] replaced by [c]. *)
Definition withCustomerId (c : option string) (l : Lead.t) : Lead.t :=
  Lead.mk (Lead.id l) (Lead.name l) (Lead.email l) (Lead.phone l)
    (Lead.source l) (Lead.status l) (Lead.score l) (Lead.message l)
    (Lead.wishlistId l) c (Lead.utmSource l) (Lead.utmMedium l)
    (Lead.utmCampaign l) (Lead.referrer l) (Lead.ipAddress l)
    (Lead.userAgent l) (Lead.assignedTo l) (Lead.createdAt l)
    (Lead.updatedAt l) (Lead.contactedAt l) (Lead.convertedAt l).

(** ** More sample data *)

Module Sample2.

Definition req : Req.t :=
  Req.mk "l9" "2025-02-01T00:00:00.000Z" "2025-02-01T00:00:00.001Z"
    (Some "10.0.0.1") None.

Definition ann : User.t := User.mk "c1" "ann@example.com" "CUSTOMER".

Definition inquiry : ContactBody.t :=
  ContactBody.mk "Ann" "ann@example.com" None (Some "p") "Is it gold?".

Definition request : LeadBody.t :=
  LeadBody.mk "Ann" "ann@example.com" (Some "+1-876-5550100")
    (Some "I would like to see these") (Some "w1") (Some "WISHLIST")
    None None None None.

Definition wishlists : list Wishlist.t := [Sample.wishlist3].

Definition scored (id status : string) (score : Z) : Lead.t :=
  Lead.set_score score
    (Sample.lead id "bob@example.com" None None "WEBSITE" status None None).

Definition fiveLeads : list Lead.t :=
  [scored "a" "NEW" 10; scored "b" "CONTACTED" 31; scored "c" "LOST" 60;
   scored "d" "CONVERTED" 61; scored "e" "SCHEDULED" 100].

Definition contacted : LeadPatch.t :=
  LeadPatch.mk None None None None None (Some "CONTACTED") None None None
    None None None None None None None (Some "admin") None None None None.

Definition bob : Customer.t :=
  Customer.mk "c2" "bob@example.com" "hash" "Bob" "B" None true
    "2025-01-01T00:00:00.000Z" "2025-01-01T00:00:00.000Z" None.

End Sample2.

(** ** Each step adds its points to the running score *)

(** Case analysis on the conditions of the goal, outermost first. *)
Ltac split_conditions :=
  repeat match goal with
         | |- context [if ?b then _ else _] => destruct b eqn:?; simpl
         end.

Lemma scoreWishlistValue_step (total : float) (score : Z) :
  scoreWishlistValue total score = score + valueStep total.
Proof.
  unfold scoreWishlistValue, valueStep, JS.geq, JS.gt; simpl.
  split_conditions; lia.
Qed.

Lemma valueStep_range (total : float) : 0 <= valueStep total <= 30.
Proof.
  unfold valueStep; simpl. split_conditions; lia.
Qed.

Lemma itemCountPoints_range (items : list WishlistItem.t) :
  0 <= itemCountPoints items <= 40.
Proof. unfold itemCountPoints. lia. Qed.

Lemma scoreWishlist_some (db : Database) (w : Wishlist.t) (score : Z) :
  scoreWishlist db (Some w) score
  = score + itemCountPoints (Wishlist.items w)
    + (if bool_decide (0 < length (Wishlist.items w))%nat
       then valueStep (wishlistTotal (products db) w) else 0).
Proof.
  unfold scoreWishlist. case_bool_decide as Hlen.
  - cbv zeta. apply scoreWishlistValue_step.
  - unfold itemCountPoints. lia.
Qed.

Lemma scoreWishlist_range (db : Database) (wishlist : option Wishlist.t)
    (score : Z) :
  score <= scoreWishlist db wishlist score <= score + 70.
Proof.
  destruct wishlist as [w|]; [|simpl; lia].
  rewrite scoreWishlist_some.
  pose proof (itemCountPoints_range (Wishlist.items w)).
  pose proof (valueStep_range (wishlistTotal (products db) w)).
  case_bool_decide; lia.
Qed.

Lemma scorePhone_range (lead : Lead.t) (score : Z) :
  score <= scorePhone lead score <= score + 10.
Proof. unfold scorePhone. case_match; lia. Qed.

Lemma scoreMessage_range (lead : Lead.t) (score : Z) :
  score <= scoreMessage lead score <= score + 10.
Proof. unfold scoreMessage. case_match; lia. Qed.

Lemma scoreSource_range (lead : Lead.t) (score : Z) :
  score <= scoreSource lead score <= score + 5.
Proof. unfold scoreSource. case_match; lia. Qed.

Lemma scoreUtm_range (lead : Lead.t) (score : Z) :
  score <= scoreUtm lead score <= score + 5.
Proof. unfold scoreUtm. case_match; lia. Qed.

Lemma scoreAccount_range (resolvedCustomerId : option string) (score : Z) :
  score <= scoreAccount resolvedCustomerId score <= score + 8.
Proof. unfold scoreAccount. case_match; lia. Qed.

Lemma scoreSiblings_range (db : Database) (lead : Lead.t)
    (resolvedCustomerId : option string) (score : Z) :
  score <= scoreSiblings db lead resolvedCustomerId score <= score + 7.
Proof. unfold scoreSiblings. repeat case_match; lia. Qed.

Lemma scoreConverted_range (db : Database) (lead : Lead.t)
    (resolvedCustomerId : option string) (score : Z) :
  score <= scoreConverted db lead resolvedCustomerId score <= score + 10.
Proof. unfold scoreConverted. repeat case_match; lia. Qed.

(** ** The score is in range *)

(** C1: for every lead, optional wishlist, optional [customerId] argument
    and state of the product and lead repositories, [calculateLeadScore]
    returns an integer between 0 and 100. *)
Theorem calculateLeadScore_range (db : Database) (lead : Lead.t)
    (wishlist : option Wishlist.t) (customerId : option string) :
  0 <= calculateLeadScore db lead wishlist customerId <= 100.
Proof.
  unfold calculateLeadScore. cbv zeta.
  set (rc := JS.or customerId (Lead.customerId lead)).
  pose proof (scoreWishlist_range db wishlist 0) as H1.
  pose proof (scorePhone_range lead (scoreWishlist db wishlist 0)) as H2.
  pose proof (scoreMessage_range lead (scorePhone lead (scoreWishlist db wishlist 0))) as H3.
  set (s3 := scoreMessage _ _) in *.
  pose proof (scoreSource_range lead s3) as H4.
  pose proof (scoreUtm_range lead (scoreSource lead s3)) as H5.
  set (s5 := scoreUtm _ _) in *.
  pose proof (scoreAccount_range rc s5) as H6.
  pose proof (scoreSiblings_range db lead rc (scoreAccount rc s5)) as H7.
  set (s7 := scoreSiblings _ _ _ _) in *.
  pose proof (scoreConverted_range db lead rc s7) as H8.
  lia.
Qed.

(** ** The value term *)

(** The first matching tier decides, top down. *)
Lemma valueStep_tiers (total : float) :
  (JS.geq total 10000 = true -> valueStep total = 30)
  /\ (JS.geq total 10000 = false -> JS.geq total 5000 = true ->
      valueStep total = 25)
  /\ (JS.geq total 10000 = false -> JS.geq total 5000 = false ->
      JS.geq total 2000 = true -> valueStep total = 20)
  /\ (JS.geq total 10000 = false -> JS.geq total 5000 = false ->
      JS.geq total 2000 = false -> JS.geq total 1000 = true ->
      valueStep total = 15)
  /\ (JS.geq total 10000 = false -> JS.geq total 5000 = false ->
      JS.geq total 2000 = false -> JS.geq total 1000 = false ->
      JS.geq total 500 = true -> valueStep total = 10)
  /\ (JS.geq total 10000 = false -> JS.geq total 5000 = false ->
      JS.geq total 2000 = false -> JS.geq total 1000 = false ->
      JS.geq total 500 = false -> JS.gt total 0 = true -> valueStep total = 5)
  /\ (JS.geq total 10000 = false -> JS.geq total 5000 = false ->
      JS.geq total 2000 = false -> JS.geq total 1000 = false ->
      JS.geq total 500 = false -> JS.gt total 0 = false -> valueStep total = 0).
Proof.
  unfold valueStep, JS.geq, JS.gt; simpl.
  repeat split; intros;
    repeat match goal with H : _ = _ |- _ => rewrite H; clear H end;
    split_conditions; reflexivity.
Qed.

Lemma fold_left_pointwise {A B} (f g : A -> B -> A) (l : list B) (a : A) :
  (forall x y, f x y = g x y) -> fold_left f l a = fold_left g l a.
Proof.
  intros Hfg. revert a.
  induction l as [|y l IH]; intros a; simpl; [done|]. by rewrite Hfg, IH.
Qed.

(** A product that is found and whose price the store can hold contributes
    that price; a product that is not found contributes 0. *)
Lemma wishlistTotal_resolved (products : list Product.t) (w : Wishlist.t) :
  (forall p, p ∈ products -> storable (Product.price p)) ->
  wishlistTotal products w = resolvedTotal products (Wishlist.items w).
Proof.
  intros Hprices. unfold wishlistTotal, resolvedTotal.
  apply fold_left_pointwise. intros total item. f_equal. unfold resolvedPrice.
  destruct (find _ products) as [p|] eqn:Hfind; [|done].
  apply find_some in Hfind as [Hin _]. apply list_elem_of_In in Hin.
  destruct (Hprices p Hin) as [-> | ->]; done.
Qed.

(** C3: for a wishlist that is not empty, the wishlist step of
    [calculateLeadScore] adds the item-count term and the value term, and
    the value term is the step function of the total of the wishlist:
    30 from 10000 on, however large the total, otherwise 25 from 5000 on,
    otherwise 20 from 2000 on, otherwise 15 from 1000 on, otherwise 10 from
    500 on, otherwise 5 above 0, otherwise 0; "otherwise" is: when none of
    the comparisons before holds.  The total is the sum of the prices of the products the items
    resolve to, an item whose product is missing counting 0, for the prices
    the store can hold. *)
Theorem wishlist_value_term (db : Database) (w : Wishlist.t) (score : Z) :
  Wishlist.items w <> [] ->
  let total := wishlistTotal (products db) w in
  let valueTerm :=
    scoreWishlist db (Some w) score - score - itemCountPoints (Wishlist.items w) in
  valueTerm = valueStep total
  /\ (JS.geq total 10000 = true -> valueTerm = 30)
  /\ (JS.geq total 10000 = false -> JS.geq total 5000 = true ->
      valueTerm = 25)
  /\ (JS.geq total 10000 = false -> JS.geq total 5000 = false ->
      JS.geq total 2000 = true -> valueTerm = 20)
  /\ (JS.geq total 10000 = false -> JS.geq total 5000 = false ->
      JS.geq total 2000 = false -> JS.geq total 1000 = true ->
      valueTerm = 15)
  /\ (JS.geq total 10000 = false -> JS.geq total 5000 = false ->
      JS.geq total 2000 = false -> JS.geq total 1000 = false ->
      JS.geq total 500 = true -> valueTerm = 10)
  /\ (JS.geq total 10000 = false -> JS.geq total 5000 = false ->
      JS.geq total 2000 = false -> JS.geq total 1000 = false ->
      JS.geq total 500 = false -> JS.gt total 0 = true -> valueTerm = 5)
  /\ (JS.geq total 10000 = false -> JS.geq total 5000 = false ->
      JS.geq total 2000 = false -> JS.geq total 1000 = false ->
      JS.geq total 500 = false -> JS.gt total 0 = false -> valueTerm = 0)
  /\ ((forall p, p ∈ products db -> storable (Product.price p)) ->
      total = resolvedTotal (products db) (Wishlist.items w)).
Proof.
  intros Hitems total valueTerm.
  assert (valueTerm = valueStep total) as Hterm.
  { unfold valueTerm. rewrite scoreWishlist_some.
    rewrite bool_decide_eq_true_2; [fold total; lia|].
    destruct (Wishlist.items w); [done|simpl; lia]. }
  rewrite Hterm. split; [done|].
  pose proof (valueStep_tiers total) as Htiers.
  repeat (split; [tauto|]).
  apply wishlistTotal_resolved.
Qed.

Lemma wishlist_value_term_witness :
  scoreWishlist Sample.db0 (Some Sample.wishlist2) 0 - 0
  - itemCountPoints (Wishlist.items Sample.wishlist2) = 25
  /\ wishlistTotal Sample.catalogue Sample.wishlist2
     = resolvedTotal Sample.catalogue (Wishlist.items Sample.wishlist2).
Proof.
  pose proof (wishlist_value_term Sample.db0 Sample.wishlist2 0) as H.
  simpl in H. destruct H as (_ & _ & H25 & _ & _ & _ & _ & _ & Htotal);
    [discriminate|].
  split.
  - apply H25; reflexivity.
  - apply Htotal. intros p Hp. unfold Sample.catalogue in Hp.
    repeat (apply elem_of_cons in Hp as [-> | Hp]; [left; reflexivity|]).
    by apply elem_of_nil in Hp.
Defined.

(** ** Leads without history *)

Lemma filter_none {A} (P : A -> Prop) `{!forall x, Decision (P x)}
    (l : list A) :
  (forall x, x ∈ l -> ~ P x) -> filter P l = [].
Proof.
  induction l as [|x l IH]; intros Hnone; [done|].
  rewrite filter_cons_False by (apply Hnone; left).
  apply IH. intros y Hy. apply Hnone. by right.
Qed.

Lemma filter_ext_elem {A} (P Q : A -> Prop) `{!forall x, Decision (P x)}
    `{!forall x, Decision (Q x)} (l : list A) :
  (forall x, x ∈ l -> P x <-> Q x) -> filter P l = filter Q l.
Proof.
  induction l as [|x l IH]; intros Hiff; [done|].
  rewrite !filter_cons.
  rewrite IH by (intros y Hy; apply Hiff; by right).
  destruct (Hiff x) as [H1 H2]; [left|].
  repeat case_decide; tauto.
Qed.

Lemma existsb_none {A} (f : A -> bool) (l : list A) :
  (forall x, x ∈ l -> f x = false) -> existsb f l = false.
Proof.
  induction l as [|x l IH]; intros Hnone; [done|]. simpl.
  rewrite Hnone by left. apply IH. intros y Hy. apply Hnone. by right.
Qed.

(** A converted sibling is a sibling whose status is [CONVERTED]. *)
Lemma isConvertedSibling_spec (lead : Lead.t)
    (resolvedCustomerId : option string) (l : Lead.t) :
  isConvertedSibling lead resolvedCustomerId l
  = isSibling lead resolvedCustomerId l
    && bool_decide (Lead.status l = "CONVERTED").
Proof.
  unfold isConvertedSibling, isSibling.
  destruct (bool_decide (Lead.id l = Lead.id lead)),
    (bool_decide (Lead.status l = "CONVERTED")),
    (JS.truthy resolvedCustomerId),
    (bool_decide (Lead.customerId l = resolvedCustomerId)),
    (bool_decide (Lead.email l = Lead.email lead)); reflexivity.
Qed.

(** Without a customer id, a lead whose email no other lead shares has no
    sibling. *)
Lemma no_sibling (db : Database) (lead : Lead.t) :
  (forall l, l ∈ leads db -> Lead.id l <> Lead.id lead ->
             Lead.email l <> Lead.email lead) ->
  forall l, l ∈ leads db -> isSibling lead None l = false.
Proof.
  intros Hother l Hl. unfold isSibling. simpl.
  case_bool_decide as Hid; [done|]. simpl.
  apply bool_decide_eq_false_2. by apply Hother.
Qed.

(** C4: a lead with a phone, a message of 25 characters, the source
    [WISHLIST], no UTM field and no customer id, with a wishlist of 3 items
    whose products total 1200, in a repository where no other lead has its
    email, scores exactly 70, which is a Hot lead. *)
Theorem hot_wishlist_lead (db : Database) (lead : Lead.t) (w : Wishlist.t)
    (message : string) :
  JS.truthy (Lead.phone lead) = true ->
  Lead.message lead = Some message ->
  String.length message = 25%nat ->
  Lead.source lead = "WISHLIST" ->
  Lead.utmSource lead = None ->
  Lead.utmMedium lead = None ->
  Lead.utmCampaign lead = None ->
  Lead.customerId lead = None ->
  length (Wishlist.items w) = 3%nat ->
  wishlistTotal (products db) w = 1200%float ->
  (forall l, l ∈ leads db -> Lead.id l <> Lead.id lead ->
             Lead.email l <> Lead.email lead) ->
  calculateLeadScore db lead (Some w) None = 70
  /\ getLeadCategory (calculateLeadScore db lead (Some w) None) = "Hot Lead".
Proof.
  intros Hphone Hmessage Hlen Hsource Hutm1 _ Hutm2 Hcustomer Hitems Htotal
    Hother.
  assert (calculateLeadScore db lead (Some w) None = 70) as ->; [|done].
  unfold calculateLeadScore. cbv zeta.
  rewrite scoreWishlist_some, Htotal.
  unfold itemCountPoints. rewrite Hitems.
  unfold scorePhone. rewrite Hphone.
  unfold scoreMessage. rewrite Hmessage. simpl JS.length. rewrite Hlen.
  assert (JS.truthy (Some message) = true) as ->.
  { destruct message; [discriminate|done]. }
  unfold scoreSource. rewrite Hsource.
  unfold scoreUtm. rewrite Hutm1, Hutm2.
  rewrite Hcustomer. change (JS.or None None) with (@None string).
  unfold scoreAccount, scoreSiblings, scoreConverted.
  rewrite (filter_none _ (leads db)).
  2:{ intros l Hl. rewrite (no_sibling db lead Hother l Hl). done. }
  rewrite (existsb_none _ (leads db)).
  2:{ intros l Hl. rewrite isConvertedSibling_spec.
      by rewrite (no_sibling db lead Hother l Hl). }
  simpl. destruct (negb _); reflexivity.
Qed.

Lemma hot_wishlist_lead_witness :
  calculateLeadScore Sample.db0 Sample.visitor (Some Sample.wishlist3) None = 70
  /\ getLeadCategory
       (calculateLeadScore Sample.db0 Sample.visitor (Some Sample.wishlist3) None)
     = "Hot Lead".
Proof.
  apply (hot_wishlist_lead Sample.db0 Sample.visitor Sample.wishlist3
           "I would like to see these"); try reflexivity.
  intros l Hl. by apply elem_of_nil in Hl.
Defined.

(** ** Returning customers *)

(** C6: when a customer id is resolved, exactly 2 other leads of the
    repository carry it, no other lead matches by email alone, and one of
    those siblings is [CONVERTED], the customer-account, repeat-contact and
    historical-conversion steps add 8 + min(2*3,7) + 10 = 24 in all. *)
Theorem returning_customer_terms (db : Database) (lead : Lead.t)
    (customerId : option string) (score : Z) :
  let resolvedCustomerId := JS.or customerId (Lead.customerId lead) in
  JS.truthy resolvedCustomerId = true ->
  length (filter (fun l => Lead.id l <> Lead.id lead
                           /\ Lead.customerId l = resolvedCustomerId)
                 (leads db)) = 2%nat ->
  (forall l, l ∈ leads db -> Lead.id l <> Lead.id lead ->
             Lead.email l = Lead.email lead ->
             Lead.customerId l = resolvedCustomerId) ->
  (exists l, l ∈ leads db /\ Lead.id l <> Lead.id lead
             /\ Lead.customerId l = resolvedCustomerId
             /\ Lead.status l = "CONVERTED") ->
  scoreAccount resolvedCustomerId score = score + 8
  /\ scoreSiblings db lead resolvedCustomerId (score + 8) = score + 8 + 6
  /\ scoreConverted db lead resolvedCustomerId (score + 8 + 6)
     = score + 8 + 6 + 10
  /\ scoreConverted db lead resolvedCustomerId
       (scoreSiblings db lead resolvedCustomerId
          (scoreAccount resolvedCustomerId score)) = score + 24.
Proof.
  intros rc Hrc Hcount Hemail (c & Hc & Hcid & Hccust & Hcstatus).
  assert (scoreAccount rc score = score + 8) as Haccount.
  { unfold scoreAccount. by rewrite Hrc. }
  assert (forall l, l ∈ leads db ->
            isSibling lead rc l = true
            <-> Lead.id l <> Lead.id lead /\ Lead.customerId l = rc) as Hsib.
  { intros l Hl. unfold isSibling. rewrite Hrc. simpl.
    repeat case_bool_decide; simpl;
      (split;
       [ intros ?; first [discriminate | split; [done|auto]]
       | intros [? ?]; done ]). }
  assert (forall s, scoreSiblings db lead rc s = s + 6) as Hsiblings.
  { intros s. unfold scoreSiblings. rewrite Hrc. simpl.
    rewrite (filter_ext_elem _ _ (leads db) Hsib), Hcount. reflexivity. }
  assert (forall s, scoreConverted db lead rc s = s + 10) as Hconverted.
  { intros s. unfold scoreConverted. rewrite Hrc. simpl.
    assert (existsb (isConvertedSibling lead rc) (leads db) = true) as ->; [|done].
    apply existsb_exists. exists c. split; [by apply list_elem_of_In|].
    rewrite isConvertedSibling_spec.
    rewrite (proj2 (Hsib c Hc)) by done.
    by rewrite bool_decide_eq_true_2. }
  rewrite Haccount, !Hsiblings, !Hconverted. repeat split; lia.
Qed.

Lemma returning_customer_terms_witness :
  scoreConverted Sample.db1 Sample.customer (Some "c1")
    (scoreSiblings Sample.db1 Sample.customer (Some "c1")
       (scoreAccount (Some "c1") 0)) = 0 + 24.
Proof.
  apply (returning_customer_terms Sample.db1 Sample.customer None 0).
  - reflexivity.
  - reflexivity.
  - intros l Hl Hid Hemail. unfold Sample.db1 in Hl; simpl in Hl.
    repeat (apply elem_of_cons in Hl as [-> | Hl]; [reflexivity|]).
    by apply elem_of_nil in Hl.
  - exists Sample.earlier1. repeat split; [left|discriminate].
Defined.

(** ** What the scorer does not read *)

Lemma erase_eq (l1 l2 : Lead.t) :
  erase l1 = erase l2
  <-> Lead.id l1 = Lead.id l2 /\ Lead.name l1 = Lead.name l2
      /\ Lead.email l1 = Lead.email l2 /\ Lead.phone l1 = Lead.phone l2
      /\ Lead.source l1 = Lead.source l2 /\ Lead.status l1 = Lead.status l2
      /\ Lead.message l1 = Lead.message l2
      /\ Lead.wishlistId l1 = Lead.wishlistId l2
      /\ Lead.customerId l1 = Lead.customerId l2
      /\ Lead.utmSource l1 = Lead.utmSource l2
      /\ Lead.utmCampaign l1 = Lead.utmCampaign l2
      /\ Lead.referrer l1 = Lead.referrer l2
      /\ Lead.ipAddress l1 = Lead.ipAddress l2
      /\ Lead.userAgent l1 = Lead.userAgent l2
      /\ Lead.assignedTo l1 = Lead.assignedTo l2
      /\ Lead.createdAt l1 = Lead.createdAt l2
      /\ Lead.updatedAt l1 = Lead.updatedAt l2
      /\ Lead.contactedAt l1 = Lead.contactedAt l2
      /\ Lead.convertedAt l1 = Lead.convertedAt l2.
Proof.
  destruct l1, l2. unfold erase, Lead.set_utmMedium, Lead.set_score. simpl.
  split.
  - intros [= -> -> -> -> -> -> -> -> -> -> -> -> -> -> -> -> -> -> ->].
    repeat split.
  - intros (-> & -> & -> & -> & -> & -> & -> & -> & -> & -> & -> & -> & ->
            & -> & -> & -> & -> & -> & ->).
    reflexivity.
Qed.

(** C10: two leads that differ in [utmMedium] and [score] at most get the
    same score, for the same wishlist, [customerId] argument and
    repository state. *)
Theorem calculateLeadScore_ignores (db : Database) (lead1 lead2 : Lead.t)
    (wishlist : option Wishlist.t) (customerId : option string) :
  erase lead1 = erase lead2 ->
  calculateLeadScore db lead1 wishlist customerId
  = calculateLeadScore db lead2 wishlist customerId.
Proof.
  intros Herase.
  assert (forall l, calculateLeadScore db l wishlist customerId
                    = calculateLeadScore db (erase l) wishlist customerId) as H.
  { intros []. reflexivity. }
  by rewrite (H lead1), (H lead2), Herase.
Qed.

Lemma calculateLeadScore_ignores_witness :
  calculateLeadScore Sample.db1 Sample.customer (Some Sample.wishlist3) None
  = calculateLeadScore Sample.db1
      (Lead.set_utmMedium (Some "email") (Lead.set_score 95 Sample.customer))
      (Some Sample.wishlist3) None.
Proof.
  apply (calculateLeadScore_ignores Sample.db1 Sample.customer
           (Lead.set_utmMedium (Some "email") (Lead.set_score 95 Sample.customer))).
  reflexivity.
Defined.

(** ** The breakdown against the score *)

Lemma sumValues_empty : sumValues ∅ = 0.
Proof. apply map_fold_empty. Qed.

Lemma sumValues_insert (label : string) (points : Z) (m : gmap string Z) :
  m !! label = None -> sumValues (<[label := points]> m) = sumValues m + points.
Proof.
  intros Hfresh. unfold sumValues.
  rewrite map_fold_insert_L; [done| |done]. intros; lia.
Qed.

(** A step of the reporter leaves the labels it does not write alone. *)
Ltac same_lookup :=
  intros; simpl;
  repeat match goal with
         | |- context [if ?b then _ else _] => destruct b
         | |- context [match ?w with Some _ => _ | None => _ end] => destruct w
         end;
  simpl; rewrite ?lookup_insert_ne by done; reflexivity.

Lemma breakdownWishlist_lookup db wishlist (m : gmap string Z) (label : string) :
  label <> "Wishlist Items" -> label <> "High Value Wishlist" ->
  label <> "Medium Value Wishlist" -> label <> "Low Value Wishlist" ->
  breakdownWishlist db wishlist m !! label = m !! label.
Proof. unfold breakdownWishlist, breakdownWishlistValue. same_lookup. Qed.

Lemma breakdownPhone_lookup lead (m : gmap string Z) (label : string) :
  label <> "Phone Provided" -> breakdownPhone lead m !! label = m !! label.
Proof. unfold breakdownPhone. same_lookup. Qed.

Lemma breakdownMessage_lookup lead (m : gmap string Z) (label : string) :
  label <> "Detailed Message" -> breakdownMessage lead m !! label = m !! label.
Proof. unfold breakdownMessage. same_lookup. Qed.

Lemma breakdownSource_lookup lead (m : gmap string Z) (label : string) :
  label <> "Wishlist Submission" -> breakdownSource lead m !! label = m !! label.
Proof. unfold breakdownSource. same_lookup. Qed.

Lemma breakdownUtm_lookup lead (m : gmap string Z) (label : string) :
  label <> "Tracked Campaign" -> breakdownUtm lead m !! label = m !! label.
Proof. unfold breakdownUtm. same_lookup. Qed.

Lemma breakdownAccount_lookup rc (m : gmap string Z) (label : string) :
  label <> "Customer Account" -> breakdownAccount rc m !! label = m !! label.
Proof. unfold breakdownAccount. same_lookup. Qed.

Create Rewrite HintDb breakdown.

#[local] Hint Rewrite breakdownWishlist_lookup breakdownPhone_lookup
  breakdownMessage_lookup breakdownSource_lookup breakdownUtm_lookup
  breakdownAccount_lookup using done : breakdown.

(** A step of the reporter adds to the sum what the step of the scorer adds
    to the score, provided its labels are not in use yet. *)
Lemma breakdownWishlistValue_sum total (m : gmap string Z) :
  m !! "High Value Wishlist" = None -> m !! "Medium Value Wishlist" = None ->
  m !! "Low Value Wishlist" = None ->
  sumValues (breakdownWishlistValue total m)
  = scoreWishlistValue total (sumValues m).
Proof.
  intros. unfold breakdownWishlistValue, scoreWishlistValue.
  split_conditions; rewrite ?sumValues_insert by done; reflexivity.
Qed.

Lemma breakdownWishlist_sum db wishlist (m : gmap string Z) :
  m !! "Wishlist Items" = None -> m !! "High Value Wishlist" = None ->
  m !! "Medium Value Wishlist" = None -> m !! "Low Value Wishlist" = None ->
  sumValues (breakdownWishlist db wishlist m)
  = scoreWishlist db wishlist (sumValues m).
Proof.
  intros. unfold breakdownWishlist, scoreWishlist.
  destruct wishlist as [w|]; [|done]. case_bool_decide; [|done]. cbv zeta.
  rewrite breakdownWishlistValue_sum by (by rewrite lookup_insert_ne).
  by rewrite sumValues_insert.
Qed.

Lemma breakdownPhone_sum lead (m : gmap string Z) :
  m !! "Phone Provided" = None ->
  sumValues (breakdownPhone lead m) = scorePhone lead (sumValues m).
Proof.
  intros. unfold breakdownPhone, scorePhone.
  split_conditions; rewrite ?sumValues_insert by done; reflexivity.
Qed.

Lemma breakdownMessage_sum lead (m : gmap string Z) :
  m !! "Detailed Message" = None ->
  sumValues (breakdownMessage lead m) = scoreMessage lead (sumValues m).
Proof.
  intros. unfold breakdownMessage, scoreMessage.
  split_conditions; rewrite ?sumValues_insert by done; reflexivity.
Qed.

Lemma breakdownSource_sum lead (m : gmap string Z) :
  m !! "Wishlist Submission" = None ->
  sumValues (breakdownSource lead m) = scoreSource lead (sumValues m).
Proof.
  intros. unfold breakdownSource, scoreSource.
  split_conditions; rewrite ?sumValues_insert by done; reflexivity.
Qed.

Lemma breakdownUtm_sum lead (m : gmap string Z) :
  m !! "Tracked Campaign" = None ->
  sumValues (breakdownUtm lead m) = scoreUtm lead (sumValues m).
Proof.
  intros. unfold breakdownUtm, scoreUtm.
  split_conditions; rewrite ?sumValues_insert by done; reflexivity.
Qed.

Lemma breakdownAccount_sum rc (m : gmap string Z) :
  m !! "Customer Account" = None ->
  sumValues (breakdownAccount rc m) = scoreAccount rc (sumValues m).
Proof.
  intros. unfold breakdownAccount, scoreAccount.
  split_conditions; rewrite ?sumValues_insert by done; reflexivity.
Qed.

Lemma breakdownHistory_sum db lead rc (m : gmap string Z) :
  m !! "Repeat Customer" = None -> m !! "Previous Conversion" = None ->
  sumValues (breakdownHistory db lead rc m)
  = scoreConverted db lead rc (scoreSiblings db lead rc (sumValues m)).
Proof.
  intros. unfold breakdownHistory, scoreConverted, scoreSiblings.
  destruct (JS.truthy rc || JS.truthy (Some (Lead.email lead))); [|done].
  cbv zeta.
  destruct (existsb _ _), (bool_decide (0 < _)%nat);
    rewrite ?sumValues_insert by (by rewrite ?lookup_insert_ne);
    reflexivity.
Qed.

(** The breakdown sums to the score before the ceiling of 100 is applied. *)
Lemma calculateLeadScore_breakdown (db : Database) (lead : Lead.t)
    (wishlist : option Wishlist.t) :
  calculateLeadScore db lead wishlist None
  = Z.min (sumValues (getScoreBreakdown db lead wishlist)) 100.
Proof.
  unfold calculateLeadScore, getScoreBreakdown. cbv zeta.
  change (JS.or None (Lead.customerId lead)) with (Lead.customerId lead).
  rewrite breakdownHistory_sum, breakdownAccount_sum, breakdownUtm_sum,
    breakdownSource_sum, breakdownMessage_sum, breakdownPhone_sum,
    breakdownWishlist_sum, sumValues_empty;
    autorewrite with breakdown; done.
Qed.

(** C2, as the code has it: called without a [customerId] argument,
    [calculateLeadScore] returns the sum of the values of
    [getScoreBreakdown] for the same lead and wishlist, capped at 100; the
    two are equal whenever that sum is at most 100. *)
Theorem breakdown_sum_capped (db : Database) (lead : Lead.t)
    (wishlist : option Wishlist.t) :
  calculateLeadScore db lead wishlist None
  = Z.min (sumValues (getScoreBreakdown db lead wishlist)) 100
  /\ (sumValues (getScoreBreakdown db lead wishlist) <= 100 ->
      sumValues (getScoreBreakdown db lead wishlist)
      = calculateLeadScore db lead wishlist None).
Proof.
  rewrite calculateLeadScore_breakdown. split; [done|lia].
Qed.

Lemma breakdown_sum_capped_witness :
  sumValues (getScoreBreakdown Sample.db0 Sample.visitor (Some Sample.wishlist3))
  = calculateLeadScore Sample.db0 Sample.visitor (Some Sample.wishlist3) None.
Proof.
  apply (breakdown_sum_capped Sample.db0 Sample.visitor (Some Sample.wishlist3)).
  vm_compute. discriminate.
Defined.

(** C2 as stated fails: with a wishlist of four items worth 22000, a phone,
    a detailed message, the wishlist source, a tracked campaign and a
    customer account, the breakdown sums to 108 and the score is 100. *)
Lemma breakdown_sum_differs :
  sumValues (getScoreBreakdown Sample.db0 Sample.customer (Some Sample.wishlist4))
  = 108
  /\ calculateLeadScore Sample.db0 Sample.customer (Some Sample.wishlist4) None
     = 100
  /\ ~ (forall db lead wishlist,
          sumValues (getScoreBreakdown db lead wishlist)
          = calculateLeadScore db lead wishlist None).
Proof.
  assert (sumValues (getScoreBreakdown Sample.db0 Sample.customer
                       (Some Sample.wishlist4)) = 108) as H1
    by (vm_compute; reflexivity).
  assert (calculateLeadScore Sample.db0 Sample.customer
            (Some Sample.wishlist4) None = 100) as H2
    by (vm_compute; reflexivity).
  repeat split; [done..|].
  intros H. specialize (H Sample.db0 Sample.customer (Some Sample.wishlist4)).
  rewrite H1, H2 in H. discriminate.
Qed.

(** ** The category classifier *)

(** C5: [getLeadCategory] is total on the integers and its three results
    are the bands [score <= 30] (Cold), [31 <= score <= 60] (Warm) and
    [61 <= score] (Hot): the bands are contiguous, pairwise disjoint, cover
    [0..100] as 0-30, 31-60 and 61-100, and every integer outside [0..100]
    falls in one of them as well. *)
Theorem getLeadCategory_bands (score : Z) :
  (getLeadCategory score = "Cold Lead" <-> score <= 30)
  /\ (getLeadCategory score = "Warm Lead" <-> 31 <= score <= 60)
  /\ (getLeadCategory score = "Hot Lead" <-> 61 <= score)
  /\ (getLeadCategory score = "Cold Lead"
      \/ getLeadCategory score = "Warm Lead"
      \/ getLeadCategory score = "Hot Lead").
Proof.
  unfold getLeadCategory.
  repeat case_bool_decide; repeat split; intros; try lia; try discriminate; auto.
Qed.

(** ** The item-count term *)

(** C7: appending one item to a wishlist never decreases the item-count
    term [min(itemCount * 10, 40)], and the term is exactly 40 from four
    items on. *)
Theorem itemCountPoints_monotone (items : list WishlistItem.t)
    (item : WishlistItem.t) :
  itemCountPoints items <= itemCountPoints (items ++ [item])
  /\ ((4 <= length items)%nat -> itemCountPoints items = 40).
Proof.
  unfold itemCountPoints. rewrite length_app. simpl. lia.
Qed.

Lemma itemCountPoints_monotone_witness :
  itemCountPoints (replicate 4 (WishlistItem.mk "i" "w" "p" None "t")) = 40.
Proof.
  apply (itemCountPoints_monotone
           (replicate 4 (WishlistItem.mk "i" "w" "p" None "t"))
           (WishlistItem.mk "i" "w" "p" None "t")).
  simpl. lia.
Defined.

(** ** The admin lead routes *)


(** What the schema returns, it returns as it is when read again. *)
Lemma updateLeadSchema_idem (raw body : LeadPatch.t) :
  updateLeadSchema raw = Some body -> updateLeadSchema body = Some body.
Proof.
  unfold updateLeadSchema. destruct (match LeadPatch.status raw with
                                     | Some _ => _ | None => _ end) eqn:Hraw;
    [|done].
  intros [= <-]. simpl. by rewrite Hraw.
Qed.


(** A body with a [score] key that reaches the handler sets the score of
    the lead: the handler hands every key of the body to [db.update]. *)
Lemma putLead_score_key (db : Database) (id : string) (body : LeadPatch.t)
    (now : string) (existingLead : Lead.t) (v : Z) :
  getById db id = Some existingLead ->
  LeadPatch.score body = Some v ->
  exists db' updatedLead,
    putLead db id body now = (db', JsonLead 200 (Some updatedLead))
    /\ Lead.score updatedLead = v.
Proof.
  intros Hexisting Hscore. unfold putLead, update. cbv zeta.
  rewrite Hexisting. unfold getById in Hexisting.
  destruct (list_find _ (leads db)) as [[index item]|]; [|done].
  eexists _, _. split; [reflexivity|]. simpl. by rewrite Hscore.
Qed.



(** C9: when every lead of the repository has one of the five statuses of
    the enumeration, the [qualified] counter of [GET /stats] is 0: the enum
    object has no member [QUALIFIED], so the status of a lead is compared
    with [undefined]. *)
Theorem qualified_is_zero (db : Database) :
  (forall l, l ∈ leads db ->
             Lead.status l ∈ ["NEW"; "CONTACTED"; "SCHEDULED"; "CONVERTED"; "LOST"]) ->
  LeadStatus !! "QUALIFIED" = None
  /\ qualified (getLeadStats db) = 0%nat.
Proof.
  intros _. split; [reflexivity|].
  unfold getLeadStats, countStatus. simpl.
  rewrite filter_none; [done|]. intros l _. by vm_compute.
Qed.

Lemma qualified_is_zero_witness :
  LeadStatus !! "QUALIFIED" = None
  /\ qualified (getLeadStats Sample.db1) = 0%nat.
Proof.
  apply (qualified_is_zero Sample.db1).
  intros l Hl. unfold Sample.db1 in Hl; simpl in Hl.
  repeat (apply elem_of_cons in Hl as [-> | Hl]; [by vm_compute; set_solver|]).
  by apply elem_of_nil in Hl.
Defined.

(** * Further properties of the scorer and of its callers *)

(** ** Bands *)

(** X1: the colour of a score follows its category: red for a Hot lead, yellow
    for a Warm lead, blue for a Cold lead, on all integers. *)
Theorem color_follows_category (score : Z) :
  (getLeadScoreColor score = "red" <-> getLeadCategory score = "Hot Lead")
  /\ (getLeadScoreColor score = "yellow"
      <-> getLeadCategory score = "Warm Lead")
  /\ (getLeadScoreColor score = "blue"
      <-> getLeadCategory score = "Cold Lead").
Proof.
  unfold getLeadScoreColor, getLeadCategory.
  repeat case_bool_decide; repeat split; intros; done.
Qed.

(** X2: the label of the WhatsApp notification and the colour of the email
    notification follow the category of the score as well. *)
Theorem notification_follows_category (score : Z) :
  (whatsappScoreLabel score = "HOT LEAD"
   <-> getLeadCategory score = "Hot Lead")
  /\ (whatsappScoreLabel score = "WARM LEAD"
      <-> getLeadCategory score = "Warm Lead")
  /\ (whatsappScoreLabel score = "COLD LEAD"
      <-> getLeadCategory score = "Cold Lead")
  /\ (emailScoreColor score = "#EF4444"
      <-> getLeadCategory score = "Hot Lead")
  /\ (emailScoreColor score = "#F59E0B"
      <-> getLeadCategory score = "Warm Lead")
  /\ (emailScoreColor score = "#3B82F6"
      <-> getLeadCategory score = "Cold Lead").
Proof.
  unfold whatsappScoreLabel, emailScoreColor, getLeadCategory.
  repeat case_bool_decide; repeat split; intros; done.
Qed.

(** X3: a recipient of a WhatsApp notification that carries the prefix
    [whatsapp:] is left as it is, any other gets the prefix put before it;
    so the recipient sent to always carries the prefix, and the prefix is
    never doubled. *)
Theorem whatsappTo_prefixed (toPhone : string) :
  (String.prefix "whatsapp:" toPhone = true -> whatsappTo toPhone = toPhone)
  /\ (String.prefix "whatsapp:" toPhone = false ->
      whatsappTo toPhone = "whatsapp:" +:+ toPhone)
  /\ String.prefix "whatsapp:" (whatsappTo toPhone) = true
  /\ whatsappTo (whatsappTo toPhone) = whatsappTo toPhone.
Proof.
  assert (String.prefix "whatsapp:" (whatsappTo toPhone) = true) as H.
  { unfold whatsappTo.
    destruct (String.prefix "whatsapp:" toPhone) eqn:Hp; [done|].
    simpl. by destruct toPhone. }
  repeat split; [| |done|].
  - intros Hp. unfold whatsappTo. by rewrite Hp.
  - intros Hp. unfold whatsappTo. by rewrite Hp.
  - unfold whatsappTo at 1. by rewrite H.
Qed.

Lemma whatsappTo_prefixed_witness :
  whatsappTo "whatsapp:+18765550100" = "whatsapp:+18765550100"
  /\ whatsappTo "+18765550100" = "whatsapp:" +:+ "+18765550100".
Proof.
  split.
  - apply (proj1 (whatsappTo_prefixed "whatsapp:+18765550100")). reflexivity.
  - apply (proj1 (proj2 (whatsappTo_prefixed "+18765550100"))). reflexivity.
Defined.

(** ** The repository as the scorer sees it *)

Lemma scoreWishlist_products (db db' : Database)
    (wishlist : option Wishlist.t) (score : Z) :
  products db = products db' ->
  scoreWishlist db wishlist score = scoreWishlist db' wishlist score.
Proof. intros H. unfold scoreWishlist. by rewrite H. Qed.

(** The two steps that read the leads grow with the number of siblings
    and with the presence of a converted one. *)
Lemma scoreSiblings_mono (db db' : Database) (lead : Lead.t)
    (rc : option string) (s s' : Z) :
  (length (filter (fun l => isSibling lead rc l = true) (leads db))
   <= length (filter (fun l => isSibling lead rc l = true) (leads db')))%nat ->
  s <= s' ->
  scoreSiblings db lead rc s <= scoreSiblings db' lead rc s'.
Proof.
  intros Hn Hs. unfold scoreSiblings.
  destruct (JS.truthy rc || JS.truthy (Some (Lead.email lead))); [|done].
  cbv zeta. repeat case_bool_decide; lia.
Qed.

Lemma scoreConverted_mono (db db' : Database) (lead : Lead.t)
    (rc : option string) (s s' : Z) :
  (existsb (isConvertedSibling lead rc) (leads db) = true ->
   existsb (isConvertedSibling lead rc) (leads db') = true) ->
  s <= s' ->
  scoreConverted db lead rc s <= scoreConverted db' lead rc s'.
Proof.
  intros Hc Hs. unfold scoreConverted.
  destruct (JS.truthy rc || JS.truthy (Some (Lead.email lead))); [|done].
  cbv zeta.
  destruct (existsb _ (leads db)); [rewrite Hc by done; lia|].
  destruct (existsb _ (leads db')); lia.
Qed.

(** The score of [lead] in [db'] is at least its score in [db] when [db']
    has the same products, no fewer siblings and a converted sibling if
    [db] has one. *)
Lemma calculateLeadScore_mono (db db' : Database) (lead : Lead.t)
    (wishlist : option Wishlist.t) (customerId : option string) :
  products db = products db' ->
  (forall rc,
     length (filter (fun l => isSibling lead rc l = true) (leads db))
     <= length (filter (fun l => isSibling lead rc l = true) (leads db')))%nat ->
  (forall rc,
     existsb (isConvertedSibling lead rc) (leads db) = true ->
     existsb (isConvertedSibling lead rc) (leads db') = true) ->
  calculateLeadScore db lead wishlist customerId
  <= calculateLeadScore db' lead wishlist customerId.
Proof.
  intros Hp Hn Hc. unfold calculateLeadScore. cbv zeta.
  rewrite (scoreWishlist_products db db') by done.
  apply Z.min_le_compat_r.
  apply scoreConverted_mono; [apply Hc|].
  apply scoreSiblings_mono; [apply Hn|]. lia.
Qed.

Lemma filter_sibling_insert (lead : Lead.t) (rc : option string)
    (before after : list Lead.t) (extra : Lead.t) :
  length (filter (fun l => isSibling lead rc l = true) (before ++ extra :: after))
  = (length (filter (fun l => isSibling lead rc l = true) (before ++ after))
     + if isSibling lead rc extra then 1 else 0)%nat.
Proof.
  rewrite !filter_app, filter_cons, !length_app.
  destruct (isSibling lead rc extra); case_decide; simpl; try done; lia.
Qed.

Lemma existsb_insert {A} (f : A -> bool) (before after : list A) (extra : A) :
  existsb f (before ++ extra :: after)
  = existsb f (before ++ after) || f extra.
Proof.
  rewrite !existsb_app. simpl.
  destruct (existsb f before), (f extra), (existsb f after); reflexivity.
Qed.

Lemma calculateLeadScore_insert_le (db : Database)
    (before after : list Lead.t) (extra lead : Lead.t)
    (wishlist : option Wishlist.t) (customerId : option string) :
  leads db = before ++ after ->
  calculateLeadScore db lead wishlist customerId
  <= calculateLeadScore (mkDatabase (products db) (before ++ extra :: after))
       lead wishlist customerId.
Proof.
  intros Hleads. apply calculateLeadScore_mono; [done|..]; intros rc; simpl;
    rewrite Hleads.
  - rewrite filter_sibling_insert. lia.
  - rewrite existsb_insert. intros ->. reflexivity.
Qed.

(** A record with the id of the lead itself is never one of its siblings. *)
Lemma isSibling_self (lead : Lead.t) (rc : option string) (l : Lead.t) :
  Lead.id l = Lead.id lead ->
  isSibling lead rc l = false /\ isConvertedSibling lead rc l = false.
Proof.
  intros Hid. rewrite isConvertedSibling_spec. unfold isSibling.
  by rewrite bool_decide_eq_true_2.
Qed.

Lemma calculateLeadScore_insert_own (db : Database)
    (before after : list Lead.t) (stored lead : Lead.t)
    (wishlist : option Wishlist.t) (customerId : option string) :
  leads db = before ++ after ->
  Lead.id stored = Lead.id lead ->
  calculateLeadScore (mkDatabase (products db) (before ++ stored :: after))
    lead wishlist customerId
  = calculateLeadScore db lead wishlist customerId.
Proof.
  intros Hleads Hid.
  apply Z.le_antisymm; [|by apply calculateLeadScore_insert_le].
  apply calculateLeadScore_mono; [done|..]; intros rc; simpl; rewrite Hleads.
  - rewrite filter_sibling_insert.
    rewrite (proj1 (isSibling_self lead rc stored Hid)). lia.
  - rewrite existsb_insert.
    rewrite (proj2 (isSibling_self lead rc stored Hid)).
    by rewrite orb_false_r.
Qed.

(** X4: recording one more lead, anywhere in the collection, never lowers the
    score of a lead. *)
Theorem more_leads_never_lower (db : Database) (before after : list Lead.t)
    (extra lead : Lead.t) (wishlist : option Wishlist.t)
    (customerId : option string) :
  leads db = before ++ after ->
  calculateLeadScore db lead wishlist customerId
  <= calculateLeadScore (mkDatabase (products db) (before ++ extra :: after))
       lead wishlist customerId.
Proof. apply calculateLeadScore_insert_le. Qed.

Lemma more_leads_never_lower_witness :
  calculateLeadScore Sample.db0 Sample.customer None None
  <= calculateLeadScore (mkDatabase Sample.catalogue [Sample.earlier1])
       Sample.customer None None.
Proof.
  apply (more_leads_never_lower Sample.db0 [] [] Sample.earlier1).
  reflexivity.
Defined.

(** X5: a lead never counts a record with its own id: recording the lead
    itself, anywhere in the collection, leaves its score as it was. *)
Theorem own_record_not_counted (db : Database) (before after : list Lead.t)
    (stored lead : Lead.t) (wishlist : option Wishlist.t)
    (customerId : option string) :
  leads db = before ++ after ->
  Lead.id stored = Lead.id lead ->
  calculateLeadScore (mkDatabase (products db) (before ++ stored :: after))
    lead wishlist customerId
  = calculateLeadScore db lead wishlist customerId.
Proof. apply calculateLeadScore_insert_own. Qed.

Lemma own_record_not_counted_witness :
  calculateLeadScore
    (mkDatabase Sample.catalogue
       [Sample.earlier1; Sample.customer; Sample.earlier2])
    Sample.customer (Some Sample.wishlist3) None
  = calculateLeadScore Sample.db1 Sample.customer (Some Sample.wishlist3) None.
Proof.
  apply (own_record_not_counted Sample.db1 [Sample.earlier1] [Sample.earlier2]
           Sample.customer Sample.customer); reflexivity.
Defined.

(** ** Leads without a wishlist *)

(** X6: without a wishlist, or with an empty one, a lead scores 55 at most and
    is never a Hot lead. *)
Theorem no_wishlist_never_hot (db : Database) (lead : Lead.t)
    (wishlist : option Wishlist.t) (customerId : option string) :
  (forall w, wishlist = Some w -> Wishlist.items w = []) ->
  calculateLeadScore db lead wishlist customerId <= 55
  /\ getLeadCategory (calculateLeadScore db lead wishlist customerId)
     <> "Hot Lead".
Proof.
  intros Hempty.
  assert (calculateLeadScore db lead wishlist customerId <= 55) as Hle.
  { unfold calculateLeadScore. cbv zeta.
    set (rc := JS.or customerId (Lead.customerId lead)).
    assert (scoreWishlist db wishlist 0 = 0) as ->.
    { destruct wishlist as [w|]; [|done]. unfold scoreWishlist.
      by rewrite (Hempty w eq_refl). }
    pose proof (scorePhone_range lead 0) as H2.
    pose proof (scoreMessage_range lead (scorePhone lead 0)) as H3.
    set (s3 := scoreMessage _ _) in *.
    pose proof (scoreSource_range lead s3) as H4.
    pose proof (scoreUtm_range lead (scoreSource lead s3)) as H5.
    set (s5 := scoreUtm _ _) in *.
    pose proof (scoreAccount_range rc s5) as H6.
    pose proof (scoreSiblings_range db lead rc (scoreAccount rc s5)) as H7.
    set (s7 := scoreSiblings _ _ _ _) in *.
    pose proof (scoreConverted_range db lead rc s7) as H8.
    lia. }
  split; [done|]. unfold getLeadCategory.
  rewrite bool_decide_eq_false_2 by lia. by case_bool_decide.
Qed.

Lemma no_wishlist_never_hot_witness :
  calculateLeadScore Sample.db1 Sample.customer None None <= 55
  /\ getLeadCategory (calculateLeadScore Sample.db1 Sample.customer None None)
     <> "Hot Lead".
Proof.
  apply (no_wishlist_never_hot Sample.db1 Sample.customer None None).
  intros w Hw. discriminate Hw.
Defined.

(** ** The [customerId] argument *)

(** X7: an empty [customerId] argument is no argument; a [customerId] argument
    that is not empty replaces the customer id of the lead, which is then
    not read at all. *)
Theorem customerId_argument (db : Database) (lead : Lead.t)
    (wishlist : option Wishlist.t) (customerId other : option string) :
  calculateLeadScore db lead wishlist (Some "")
  = calculateLeadScore db lead wishlist None
  /\ (JS.truthy customerId = true ->
      calculateLeadScore db (withCustomerId other lead) wishlist customerId
      = calculateLeadScore db lead wishlist customerId).
Proof.
  split; [reflexivity|]. intros Hc.
  unfold calculateLeadScore, JS.or. rewrite Hc. by destruct lead.
Qed.

Lemma customerId_argument_witness :
  calculateLeadScore Sample.db1 (withCustomerId (Some "c7") Sample.visitor)
    None (Some "c1")
  = calculateLeadScore Sample.db1 Sample.visitor None (Some "c1").
Proof.
  apply (customerId_argument Sample.db1 Sample.visitor None (Some "c1")
           (Some "c7")).
  reflexivity.
Defined.

(** ** The entries of a breakdown *)

Lemma breakdownWishlistValue_entries (P : string -> Z -> Prop) total
    (m : gmap string Z) :
  (forall label points, 3 <= points <= 40 -> P label points) ->
  map_Forall P m -> map_Forall P (breakdownWishlistValue total m).
Proof.
  intros HP Hm. unfold breakdownWishlistValue.
  split_conditions; try done; apply map_Forall_insert_2; try done;
    apply HP; lia.
Qed.

Lemma sumValues_positive (m : gmap string Z) :
  map_Forall (fun _ points => 3 <= points <= 40) m ->
  0 <= sumValues m /\ (sumValues m = 0 -> m = ∅).
Proof.
  induction m as [|label points m Hfresh IH] using map_ind; intros Hm.
  - by rewrite sumValues_empty.
  - rewrite sumValues_insert by done.
    apply map_Forall_insert in Hm as [Hpoints Hrest]; [|done].
    destruct (IH Hrest) as [Hsum _]. split; lia.
Qed.

Lemma getScoreBreakdown_entries (db : Database) (lead : Lead.t)
    (wishlist : option Wishlist.t) :
  map_Forall (fun _ points => 3 <= points <= 40)
             (getScoreBreakdown db lead wishlist).
Proof.
  unfold getScoreBreakdown. cbv zeta.
  unfold breakdownHistory, breakdownAccount, breakdownUtm, breakdownSource,
    breakdownMessage, breakdownPhone, breakdownWishlist.
  cbv zeta.
  repeat match goal with
         | |- map_Forall _ ∅ => apply map_Forall_empty
         | |- map_Forall _ (<[_ := _]> _) =>
             apply map_Forall_insert_2; [try lia|]
         | |- map_Forall _ (breakdownWishlistValue _ _) =>
             apply breakdownWishlistValue_entries; [done|]
         | |- map_Forall _ (if ?b then _ else _) => destruct b eqn:?
         | |- map_Forall _ (match ?w with Some _ => _ | None => _ end) =>
             destruct w
         end.
  all: try (unfold itemCountPoints;
            match goal with
            | H : bool_decide _ = true |- _ => apply bool_decide_eq_true_1 in H
            end; lia).
Qed.

(** X8: every entry of a breakdown is worth 3 points at least and 40 at most:
    a term that is not triggered has no entry, rather than an entry of 0. *)
Theorem breakdown_entries_positive (db : Database) (lead : Lead.t)
    (wishlist : option Wishlist.t) :
  map_Forall (fun _ points => 3 <= points <= 40)
             (getScoreBreakdown db lead wishlist).
Proof. apply getScoreBreakdown_entries. Qed.

(** X9: a lead scores 0 exactly when its breakdown has no entry at all. *)
Theorem zero_score_empty_breakdown (db : Database) (lead : Lead.t)
    (wishlist : option Wishlist.t) :
  calculateLeadScore db lead wishlist None = 0
  <-> getScoreBreakdown db lead wishlist = ∅.
Proof.
  rewrite calculateLeadScore_breakdown.
  pose proof (sumValues_positive _ (getScoreBreakdown_entries db lead wishlist))
    as [Hsum Hempty].
  split.
  - intros Hzero. apply Hempty. lia.
  - intros ->. by rewrite sumValues_empty.
Qed.

(** X10: the routes pass as [customerId] the customer id they have just put on
    the lead: for such a call the score is the sum of the breakdown of the
    lead, capped at 100. *)
Theorem routes_score_is_breakdown (db : Database) (lead : Lead.t)
    (wishlist : option Wishlist.t) (customerId : option string) :
  Lead.customerId lead = customerId ->
  calculateLeadScore db lead wishlist customerId
  = Z.min (sumValues (getScoreBreakdown db lead wishlist)) 100.
Proof.
  intros <-. rewrite <- calculateLeadScore_breakdown.
  unfold calculateLeadScore, JS.or. by destruct (JS.truthy _).
Qed.

Lemma routes_score_is_breakdown_witness :
  calculateLeadScore Sample.db1 Sample.customer (Some Sample.wishlist3)
    (Some "c1")
  = Z.min (sumValues (getScoreBreakdown Sample.db1 Sample.customer
                        (Some Sample.wishlist3))) 100.
Proof.
  apply (routes_score_is_breakdown Sample.db1 Sample.customer
           (Some Sample.wishlist3) (Some "c1")).
  reflexivity.
Defined.

(** ** The public lead routes *)

Lemma length_append (a b : string) :
  String.length (a +:+ b) = (String.length a + String.length b)%nat.
Proof. induction a as [|c a IH]; simpl; [done|]. by rewrite IH. Qed.

(** The score does not depend on the [score] field of the lead. *)
Lemma calculateLeadScore_set_score (db : Database) (lead : Lead.t)
    (wishlist : option Wishlist.t) (customerId : option string) (v : Z) :
  calculateLeadScore db (Lead.set_score v lead) wishlist customerId
  = calculateLeadScore db lead wishlist customerId.
Proof. by destruct lead. Qed.

(** X11: a lead made by the contact form scores 45 at most: it is a Cold or a
    Warm lead, never a Hot one.  It is stored as a [NEW] lead of source
    [CONTACT_FORM]. *)
Theorem contact_lead_never_hot (db : Database) (user : option User.t)
    (body : ContactBody.t) (req : Req.t) :
  let lead := contactLead db user body req in
  0 <= Lead.score lead <= 45
  /\ getLeadCategory (Lead.score lead) <> "Hot Lead"
  /\ Lead.status lead = "NEW"
  /\ Lead.source lead = "CONTACT_FORM".
Proof.
  intros lead.
  assert (0 <= Lead.score lead <= 45) as Hscore.
  { unfold lead, contactLead. cbv zeta. simpl Lead.score.
    unfold calculateLeadScore. cbv zeta.
    set (l := Lead.mk _ _ _ _ _ _ _ _ _ _ _ _ _ _ _ _ _ _ _ _ _).
    set (rc := JS.or (customerIdOf user) (Lead.customerId l)).
    change (scoreWishlist db None 0) with 0.
    pose proof (scorePhone_range l 0) as H2.
    pose proof (scoreMessage_range l (scorePhone l 0)) as H3.
    set (s3 := scoreMessage _ _) in *.
    assert (scoreSource l s3 = s3) as -> by done.
    assert (scoreUtm l s3 = s3) as -> by done.
    pose proof (scoreAccount_range rc s3) as H6.
    pose proof (scoreSiblings_range db l rc (scoreAccount rc s3)) as H7.
    set (s7 := scoreSiblings _ _ _ _) in *.
    pose proof (scoreConverted_range db l rc s7) as H8.
    lia. }
  split; [done|]. split; [|done].
  unfold getLeadCategory. rewrite bool_decide_eq_false_2 by lia.
  by case_bool_decide.
Qed.

(** X12: an inquiry about a product always earns the 10 points of a detailed
    message, however short the message typed: the text the route puts
    before it makes the stored message longer than 20 characters. *)
Theorem product_inquiry_is_detailed (db : Database) (user : option User.t)
    (body : ContactBody.t) (req : Req.t) :
  JS.truthy (ContactBody.productId body) = true ->
  ContactBody.message body <> "" ->
  let lead := contactLead db user body req in
  (20 < JS.length (Lead.message lead))%nat
  /\ scoreMessage lead 0 = 10
  /\ 10 <= Lead.score lead.
Proof.
  intros Hproduct Hmessage lead.
  destruct (ContactBody.productId body) as [productId|] eqn:Hp; [|done].
  assert (exists text,
            Lead.message lead = Some text /\ (20 < String.length text)%nat)
    as (text & Htext & Hlen).
  { eexists. split.
    - unfold lead, contactLead. cbv zeta. simpl. by rewrite Hp, Hproduct.
    - rewrite !length_append. simpl.
      destruct productId; [done|].
      destruct (ContactBody.message body); [done|]. simpl. lia. }
  assert (scoreMessage lead 0 = 10) as Hdetailed.
  { unfold scoreMessage. rewrite Htext. simpl JS.length.
    rewrite bool_decide_eq_true_2 by done.
    destruct text; [simpl in Hlen; lia|done]. }
  split; [by rewrite Htext|]. split; [done|].
  unfold lead, contactLead. cbv zeta. simpl Lead.score.
  fold lead in Hdetailed.
  unfold calculateLeadScore. cbv zeta.
  set (l := Lead.mk _ _ _ _ _ _ _ _ _ _ _ _ _ _ _ _ _ _ _ _ _).
  assert (scoreMessage l (scorePhone l (scoreWishlist db None 0))
          = scorePhone l (scoreWishlist db None 0) + 10) as Hm.
  { unfold scoreMessage in *. change (Lead.message l) with (Lead.message lead).
    destruct (JS.truthy (Lead.message lead) && _); [done|discriminate]. }
  clear Hdetailed. rewrite Hm.
  change (scoreWishlist db None 0) with 0.
  set (rc := JS.or (customerIdOf user) (Lead.customerId l)).
  pose proof (scorePhone_range l 0) as H2.
  set (s3 := scorePhone l 0 + 10) in *.
  pose proof (scoreSource_range l s3) as H4.
  pose proof (scoreUtm_range l (scoreSource l s3)) as H5.
  set (s5 := scoreUtm _ _) in *.
  pose proof (scoreAccount_range rc s5) as H6.
  pose proof (scoreSiblings_range db l rc (scoreAccount rc s5)) as H7.
  set (s7 := scoreSiblings _ _ _ _) in *.
  pose proof (scoreConverted_range db l rc s7) as H8.
  lia.
Qed.

Lemma product_inquiry_is_detailed_witness :
  (20 < JS.length
          (Lead.message (contactLead Sample.db0 None Sample2.inquiry Sample2.req)))%nat
  /\ scoreMessage (contactLead Sample.db0 None Sample2.inquiry Sample2.req) 0
     = 10
  /\ 10 <= Lead.score (contactLead Sample.db0 None Sample2.inquiry Sample2.req).
Proof.
  apply (product_inquiry_is_detailed Sample.db0 None Sample2.inquiry Sample2.req).
  - reflexivity.
  - discriminate.
Defined.

Lemma wishlistOf_orUndefined (wishlists : list Wishlist.t)
    (id : option string) :
  wishlistOf wishlists (orUndefined id) = wishlistOf wishlists id.
Proof.
  unfold orUndefined, JS.or, wishlistOf.
  destruct id as [i|]; [|done].
  destruct (JS.truthy (Some i)) eqn:Hi; [|done].
  simpl in *. by rewrite Hi.
Qed.

Lemma getById_create (db : Database) (lead : Lead.t) :
  (forall l, l ∈ leads db -> Lead.id l <> Lead.id lead) ->
  getById (create db lead) (Lead.id lead) = Some lead.
Proof.
  intros Hfresh. unfold getById, create. simpl.
  rewrite list_find_app_r.
  - simpl. by rewrite decide_True.
  - apply list_find_None, Forall_forall. intros l Hl. by apply Hfresh.
Qed.

(** X13: a lead made by [POST /api/leads] under an id no stored lead has is
    stored whether the notifications go through (answer 201, with the id
    and the score of the lead) or throw (answer 500).  Read by
    [GET /api/admin/leads/:id] it shows the category of its score, the
    wishlist the score was computed with, and a breakdown whose sum, capped
    at 100, is its score. *)
Theorem created_lead_detail (db : Database) (wishlists : list Wishlist.t)
    (user : option User.t) (body : LeadBody.t) (req : Req.t)
    (notified : bool) :
  (forall l, l ∈ leads db -> Lead.id l <> Req.uuid req) ->
  exists lead scoreBreakdown,
    (postLead db wishlists user body req notified).1 = create db lead
    /\ (postLead db wishlists user body req notified).2
       = (if notified then
            PostCreated
              (Created.mk (Req.uuid req)
                 "Thank you for your interest! We'll be in touch soon."
                 (Lead.score lead))
          else PostError 500 "Failed to create lead")
    /\ getLead (postLead db wishlists user body req notified).1 wishlists
         (Req.uuid req)
       = DetailLead lead (getLeadCategory (Lead.score lead))
           (wishlistOf wishlists (LeadBody.wishlistId body)) scoreBreakdown
    /\ Lead.score lead = Z.min (sumValues scoreBreakdown) 100.
Proof.
  intros Hfresh.
  set (lead := newLead db wishlists user body req).
  assert (Lead.id lead = Req.uuid req) as Hid by done.
  assert (Lead.wishlistId lead = orUndefined (LeadBody.wishlistId body))
    as Hwishlist by done.
  assert ((postLead db wishlists user body req notified).1 = create db lead)
    as Hstored by (unfold postLead; cbv zeta; by destruct notified).
  exists lead, (getScoreBreakdown (create db lead) lead
                  (wishlistOf wishlists (LeadBody.wishlistId body))).
  rewrite Hstored. split; [done|]. split; [|split].
  - unfold postLead. cbv zeta. by destruct notified.
  - unfold getLead. rewrite <- Hid, getById_create by (by rewrite Hid).
    cbv zeta. by rewrite Hwishlist, wishlistOf_orUndefined.
  - rewrite <- calculateLeadScore_breakdown.
    unfold create.
    rewrite <- (app_nil_r (leads db ++ [lead])), <- app_assoc. simpl.
    rewrite (calculateLeadScore_insert_own db (leads db) [] lead lead)
      by (by rewrite ?app_nil_r).
    unfold lead at 1. unfold newLead. cbv zeta. simpl Lead.score.
    fold lead.
    set (lead0 := Lead.mk _ _ _ _ _ _ _ _ _ _ _ _ _ _ _ _ _ _ _ _ _).
    change lead with
      (Lead.set_score
         (calculateLeadScore db lead0
            (wishlistOf wishlists (LeadBody.wishlistId body))
            (customerIdOf user)) lead0).
    rewrite calculateLeadScore_set_score.
    unfold calculateLeadScore, JS.or. simpl Lead.customerId.
    by destruct (JS.truthy (customerIdOf user)).
Qed.

Lemma created_lead_detail_witness :
  exists lead scoreBreakdown,
    (postLead Sample.db1 Sample2.wishlists (Some Sample2.ann) Sample2.request
       Sample2.req false).1 = create Sample.db1 lead
    /\ (postLead Sample.db1 Sample2.wishlists (Some Sample2.ann)
          Sample2.request Sample2.req false).2
       = PostError 500 "Failed to create lead"
    /\ getLead
         (postLead Sample.db1 Sample2.wishlists (Some Sample2.ann)
            Sample2.request Sample2.req false).1
         Sample2.wishlists (Req.uuid Sample2.req)
       = DetailLead lead (getLeadCategory (Lead.score lead))
           (wishlistOf Sample2.wishlists (LeadBody.wishlistId Sample2.request))
           scoreBreakdown
    /\ Lead.score lead = Z.min (sumValues scoreBreakdown) 100.
Proof.
  apply (created_lead_detail Sample.db1 Sample2.wishlists (Some Sample2.ann)
           Sample2.request Sample2.req false).
  intros l Hl. unfold Sample.db1 in Hl; simpl in Hl.
  repeat (apply elem_of_cons in Hl as [-> | Hl]; [discriminate|]).
  by apply elem_of_nil in Hl.
Defined.

(** ** The lead statistics *)

Lemma length_filter_iff {A} (P Q : A -> Prop) `{!forall x, Decision (P x)}
    `{!forall x, Decision (Q x)} (l : list A) :
  (forall x, P x <-> Q x) -> length (filter P l) = length (filter Q l).
Proof. intros Hiff. by rewrite (list_filter_iff P Q l Hiff). Qed.

(** X14: the counters [hot], [warm] and [cold] of [GET /stats] count the leads
    of each category, and every lead is counted by exactly one of them:
    together they make the total. *)
Theorem stats_bands_partition (db : Database) :
  let stats := getLeadStats db in
  (hot stats + warm stats + cold stats = total stats)%nat
  /\ hot stats
     = length (filter (fun l => getLeadCategory (Lead.score l) = "Hot Lead")
                      (leads db))
  /\ warm stats
     = length (filter (fun l => getLeadCategory (Lead.score l) = "Warm Lead")
                      (leads db))
  /\ cold stats
     = length (filter (fun l => getLeadCategory (Lead.score l) = "Cold Lead")
                      (leads db)).
Proof.
  simpl. split.
  - induction (leads db) as [|l rest IH]; [done|].
    rewrite !filter_cons. simpl length.
    repeat case_decide; simpl length; lia.
  - repeat split; apply length_filter_iff; intros l;
      unfold getLeadCategory; repeat case_bool_decide;
      split; intros; try done; lia.
Qed.

Lemma countStatus_value (member value : string) (leads : list Lead.t) :
  LeadStatus !! member = Some value ->
  countStatus member leads
  = length (filter (fun l => Lead.status l = value) leads).
Proof.
  intros Hmember. unfold countStatus, strictEq. rewrite Hmember.
  apply length_filter_iff. intros l. rewrite bool_decide_eq_true.
  split; [by intros [= ->]|by intros ->].
Qed.

(** X15: when every lead has one of the five statuses of the enumeration, the
    counters [new], [contacted], [scheduled], [converted] and [lost] of
    [GET /stats] make the total: every lead is counted once. *)
Theorem stats_statuses_partition (db : Database) :
  (forall l, l ∈ leads db ->
             Lead.status l ∈ ["NEW"; "CONTACTED"; "SCHEDULED"; "CONVERTED"; "LOST"]) ->
  let stats := getLeadStats db in
  (new stats + contacted stats + scheduled stats + converted stats
   + lost stats = total stats)%nat.
Proof.
  intros Hstatus. simpl.
  rewrite (countStatus_value "NEW" "NEW"), (countStatus_value "CONTACTED" "CONTACTED"),
    (countStatus_value "SCHEDULED" "SCHEDULED"),
    (countStatus_value "CONVERTED" "CONVERTED"),
    (countStatus_value "LOST" "LOST") by reflexivity.
  induction (leads db) as [|l rest IH]; [done|].
  rewrite !filter_cons. simpl length.
  assert (Lead.status l ∈ ["NEW"; "CONTACTED"; "SCHEDULED"; "CONVERTED"; "LOST"])
    as Hl by (apply Hstatus; left).
  specialize (IH (fun x Hx => Hstatus x (list_elem_of_further _ _ _ Hx))).
  repeat (apply elem_of_cons in Hl as [-> | Hl];
          [repeat case_decide; simpl length; first [congruence | lia]|]).
  by apply elem_of_nil in Hl.
Qed.

Lemma stats_statuses_partition_witness :
  let stats := getLeadStats (mkDatabase [] Sample2.fiveLeads) in
  (new stats + contacted stats + scheduled stats + converted stats
   + lost stats = total stats)%nat.
Proof.
  apply (stats_statuses_partition (mkDatabase [] Sample2.fiveLeads)).
  intros l Hl. unfold Sample2.fiveLeads in Hl; simpl in Hl.
  repeat (apply elem_of_cons in Hl as [-> | Hl]; [vm_compute; set_solver|]).
  by apply elem_of_nil in Hl.
Defined.

(** ** Pagination *)

Lemma slice_take_drop {A} (l : list A) (start finish : Z) :
  0 <= start <= finish ->
  slice l start finish
  = take (Z.to_nat (finish - start)) (drop (Z.to_nat start) l).
Proof.
  intros Hrange. unfold slice. cbv zeta.
  rewrite !bool_decide_eq_false_2 by lia.
  destruct (decide (Z.of_nat (length l) <= start)) as [Hpast|Hin].
  - rewrite !Z.min_r by lia.
    rewrite !drop_ge by lia. by rewrite !take_nil.
  - rewrite (Z.min_l start) by lia.
    destruct (decide (finish <= Z.of_nat (length l))) as [Hfin|Hfin].
    + by rewrite Z.min_l by lia.
    + rewrite Z.min_r by lia.
      rewrite !take_ge; [done|rewrite length_drop; lia..].
Qed.

Lemma paginate_take_drop (leads : list Lead.t) (limitNum pageNum : Z) :
  1 <= limitNum -> 1 <= pageNum ->
  paginate leads limitNum pageNum
  = take (Z.to_nat limitNum)
      (drop (Z.to_nat (pageNum - 1) * Z.to_nat limitNum) leads).
Proof.
  intros Hlimit Hpage. unfold paginate. cbv zeta.
  rewrite slice_take_drop by nia. do 2 f_equal; nia.
Qed.

Lemma pages_take (leads : list Lead.t) (m n : nat) :
  concat (map (fun p => take m (drop ((p - 1) * m) leads)) (seq 1 n))
  = take (n * m) leads.
Proof.
  induction n as [|n IH]; [done|].
  rewrite seq_S, map_app, concat_app, IH. simpl.
  rewrite app_nil_r, Nat.sub_0_r, take_take_drop. f_equal. lia.
Qed.

Lemma totalPages_enough (leads : list Lead.t) (limitNum : Z) :
  1 <= limitNum ->
  0 <= totalPages leads limitNum
  /\ Z.of_nat (length leads) <= totalPages leads limitNum * limitNum
  /\ (totalPages leads limitNum - 1) * limitNum < Z.of_nat (length leads).
Proof.
  intros Hlimit. unfold totalPages.
  pose proof (Z.div_mod (Z.of_nat (length leads) + limitNum - 1) limitNum) as Hdiv.
  pose proof (Z.mod_pos_bound (Z.of_nat (length leads) + limitNum - 1) limitNum)
    as Hmod.
  assert (0 <= (Z.of_nat (length leads) + limitNum - 1) / limitNum)
    by (apply Z.div_pos; lia).
  nia.
Qed.

(** X16: for a limit of 1 or more, the pages 1, 2, ... up to [totalPages], one
    after the other, are the leads, each once and in order; every page has
    [limit] leads at most. *)
Theorem pages_cover_leads (leads : list Lead.t) (limitNum : Z) :
  1 <= limitNum ->
  concat (map (fun p => paginate leads limitNum (Z.of_nat p))
              (seq 1 (Z.to_nat (totalPages leads limitNum))))
  = leads
  /\ (forall pageNum, 1 <= pageNum ->
        Z.of_nat (length (paginate leads limitNum pageNum)) <= limitNum).
Proof.
  intros Hlimit. split.
  - rewrite <- (take_ge leads
                  (Z.to_nat (totalPages leads limitNum) * Z.to_nat limitNum))
      at 2.
    2:{ pose proof (totalPages_enough leads limitNum Hlimit). nia. }
    rewrite <- pages_take. f_equal. apply map_ext_in.
    intros p Hp. apply in_seq in Hp.
    rewrite paginate_take_drop by lia. do 3 f_equal. lia.
  - intros pageNum Hpage. rewrite paginate_take_drop by done.
    rewrite length_take. lia.
Qed.

Lemma pages_cover_leads_witness :
  concat (map (fun p => paginate Sample2.fiveLeads 2 (Z.of_nat p))
              (seq 1 (Z.to_nat (totalPages Sample2.fiveLeads 2))))
  = Sample2.fiveLeads.
Proof.
  apply (pages_cover_leads Sample2.fiveLeads 2). lia.
Defined.

(** X17: for a limit of 1 or more, page 0 and every page after [totalPages] are
    empty, and every page from 1 to [totalPages] has a lead. *)
Theorem pages_out_of_range (leads : list Lead.t) (limitNum pageNum : Z) :
  1 <= limitNum ->
  (pageNum = 0 \/ totalPages leads limitNum < pageNum ->
   paginate leads limitNum pageNum = [])
  /\ (1 <= pageNum <= totalPages leads limitNum ->
      paginate leads limitNum pageNum <> []).
Proof.
  intros Hlimit.
  pose proof (totalPages_enough leads limitNum Hlimit) as (Hpos & Hup & Hlow).
  split.
  - intros [-> | Hpast].
    + unfold paginate, slice. cbv zeta.
      repeat case_bool_decide; try lia.
      replace (Z.to_nat _) with 0%nat by lia. done.
    + rewrite paginate_take_drop by lia.
      rewrite drop_ge; [by rewrite take_nil|]. nia.
  - intros Hpage. rewrite paginate_take_drop by lia.
    intros Hnil. apply (f_equal length) in Hnil.
    rewrite length_take, length_drop in Hnil. simpl in Hnil.
    nia.
Qed.

Lemma pages_out_of_range_witness :
  paginate Sample2.fiveLeads 2 4 = []
  /\ paginate Sample2.fiveLeads 2 3 <> [].
Proof.
  destruct (pages_out_of_range Sample2.fiveLeads 2 4) as [Hpast _]; [lia|].
  destruct (pages_out_of_range Sample2.fiveLeads 2 3) as [_ Hin]; [lia|].
  split; [apply Hpast; right|apply Hin]; vm_compute; split; congruence.
Defined.

(** X18: a negative page is not refused: it reads from the end.  For a limit of
    1 or more, page [-p] holds the [limit] leads that come before the last
    [p * limit] ones, when there are that many. *)
Theorem negative_page_reads_from_end (leads : list Lead.t)
    (limitNum p : Z) :
  1 <= limitNum -> 1 <= p ->
  (p + 1) * limitNum <= Z.of_nat (length leads) ->
  paginate leads limitNum (- p)
  = take (Z.to_nat limitNum)
      (drop (Z.to_nat (Z.of_nat (length leads) - (p + 1) * limitNum)) leads)
  /\ Z.of_nat (length (paginate leads limitNum (- p))) = limitNum.
Proof.
  intros Hlimit Hp Hlen.
  assert (paginate leads limitNum (- p)
          = take (Z.to_nat limitNum)
              (drop (Z.to_nat (Z.of_nat (length leads) - (p + 1) * limitNum))
                    leads)) as ->.
  { unfold paginate, slice. cbv zeta.
    rewrite !bool_decide_eq_true_2 by nia.
    rewrite !Z.max_l by nia. do 2 f_equal; nia. }
  split; [done|]. rewrite length_take, length_drop. nia.
Qed.

Lemma negative_page_reads_from_end_witness :
  paginate Sample2.fiveLeads 2 (- 1)
  = take 2 (drop 1 Sample2.fiveLeads)
  /\ Z.of_nat (length (paginate Sample2.fiveLeads 2 (- 1))) = 2.
Proof.
  apply (negative_page_reads_from_end Sample2.fiveLeads 2 1); simpl; lia.
Defined.

(** ** The customers of the admin *)

Lemma maxOf_spec (first : Z) (rest : list Z) :
  (forall x, x ∈ first :: rest -> x <= maxOf first rest)
  /\ maxOf first rest ∈ first :: rest.
Proof.
  unfold maxOf. revert first.
  induction rest as [|y rest IH]; intros first; simpl.
  - split; [|left]. by intros x ->%list_elem_of_singleton.
  - destruct (IH (Z.max first y)) as [Hle Hin]. split.
    + intros x Hx.
      assert (Z.max first y <= fold_left Z.max rest (Z.max first y))
        by (apply Hle; left).
      apply elem_of_cons in Hx as [-> | Hx]; [lia|].
      apply elem_of_cons in Hx as [-> | Hx]; [lia|].
      apply Hle. by right.
    + apply elem_of_cons in Hin as [Hmax | Hin].
      * rewrite Hmax. destruct (Z.max_spec first y) as [[_ ->] | [_ ->]];
          [right; left|left].
      * right. by right.
Qed.

(** X19: [highestScore] of a customer is the score of one of its leads and no
    lead of the customer scores more; it is 0 for a customer without
    leads. *)
Theorem highestScore_is_max (allLeads : list Lead.t) (customer : Customer.t) :
  (forall l, l ∈ customerLeads allLeads customer ->
             Lead.score l <= highestScore allLeads customer)
  /\ (customerLeads allLeads customer <> [] ->
      exists l, l ∈ customerLeads allLeads customer
                /\ Lead.score l = highestScore allLeads customer)
  /\ (customerLeads allLeads customer = [] ->
      highestScore allLeads customer = 0).
Proof.
  unfold highestScore.
  destruct (customerLeads allLeads customer) as [|l0 rest] eqn:Hleads.
  - repeat split; [by intros l ?%elem_of_nil|done..].
  - simpl map. destruct (maxOf_spec (Lead.score l0) (map Lead.score rest))
      as [Hle Hin].
    repeat split; [| |done].
    + intros l Hl. apply Hle.
      change (Lead.score l0 :: map Lead.score rest)
        with (map Lead.score (l0 :: rest)).
      by apply list_elem_of_fmap_2.
    + intros _.
      change (Lead.score l0 :: map Lead.score rest)
        with (Lead.score <$> (l0 :: rest)) in Hin.
      apply list_elem_of_fmap in Hin as (l & Hscore & Hl). by exists l.
Qed.

Lemma highestScore_is_max_witness :
  exists l, l ∈ customerLeads Sample2.fiveLeads Sample2.bob
            /\ Lead.score l = highestScore Sample2.fiveLeads Sample2.bob.
Proof.
  apply (highestScore_is_max Sample2.fiveLeads Sample2.bob).
  vm_compute. discriminate.
Defined.

(** X20: when the scorer grants the conversion bonus to a lead of a customer
    (the customer id resolved is the customer's, the email is the
    customer's), the list of customers shows [hasConverted] for that
    customer. *)
Theorem conversion_bonus_shows (db : Database) (lead : Lead.t)
    (customer : Customer.t) (customerId : option string) (score : Z) :
  let resolvedCustomerId := JS.or customerId (Lead.customerId lead) in
  resolvedCustomerId = Some (Customer.id customer) ->
  Lead.email lead = Customer.email customer ->
  scoreConverted db lead resolvedCustomerId score = score + 10 ->
  hasConverted (leads db) customer = true.
Proof.
  intros rc Hrc Hemail Hbonus. unfold scoreConverted in Hbonus.
  destruct (JS.truthy rc || _); [|lia]. cbv zeta in Hbonus.
  destruct (existsb _ (leads db)) eqn:Hexists; [|lia].
  apply existsb_exists in Hexists as (l & Hl & Hconv).
  rewrite isConvertedSibling_spec in Hconv.
  apply andb_true_iff in Hconv as [Hsib Hstatus].
  unfold hasConverted. apply existsb_exists. exists l. split; [|done].
  apply list_elem_of_In, list_elem_of_filter. split; [|by apply list_elem_of_In].
  unfold isSibling in Hsib. rewrite Hrc, Hemail in Hsib.
  apply andb_true_iff in Hsib as [_ Hjoin].
  apply orb_true_iff in Hjoin as [Hjoin | Hjoin].
  - apply andb_true_iff in Hjoin as [_ Hcid].
    left. by apply bool_decide_eq_true_1 in Hcid.
  - right. by apply bool_decide_eq_true_1 in Hjoin.
Qed.

Lemma conversion_bonus_shows_witness :
  hasConverted (leads Sample.db1)
    (Customer.mk "c1" "ann@example.com" "hash" "Ann" "A" None true
       "2025-01-01T00:00:00.000Z" "2025-01-01T00:00:00.000Z" None) = true.
Proof.
  apply (conversion_bonus_shows Sample.db1 Sample.customer
           (Customer.mk "c1" "ann@example.com" "hash" "Ann" "A" None true
              "2025-01-01T00:00:00.000Z" "2025-01-01T00:00:00.000Z" None)
           None 0); reflexivity.
Defined.

Lemma fold_left_map {A B C} (f : A -> C -> A) (g : B -> C) (l : list B)
    (a : A) :
  fold_left f (map g l) a = fold_left (fun x y => f x (g y)) l a.
Proof. revert a. induction l as [|y l IH]; intros a; simpl; [done|apply IH]. Qed.

(** X21: the value of a wishlist on the page of a customer is the total the
    scorer computes for that wishlist. *)
Theorem totalValue_is_wishlistTotal (products : list Product.t)
    (wishlist : Wishlist.t) :
  totalValue products wishlist = wishlistTotal products wishlist.
Proof.
  unfold totalValue, wishlistTotal. cbv zeta. rewrite fold_left_map.
  reflexivity.
Qed.

(** ** The history of a lead *)

Lemma filter_length_pos {A} (P : A -> Prop) `{!forall x, Decision (P x)}
    (l : list A) (x : A) :
  x ∈ l -> P x -> (0 < length (filter P l))%nat.
Proof.
  intros Hx HP.
  assert (x ∈ filter P l) as Hin by (by apply list_elem_of_filter).
  destruct (filter P l); [by apply elem_of_nil in Hin|simpl; lia].
Qed.

(** X22: a lead with a customer id or an email gets [min(3 * n, 7)] points for
    its [n] siblings: 3 for one, 6 for two, 7 from three on.  A lead with
    neither gets none, whatever the repository holds. *)
Theorem sibling_bonus_saturates (db : Database) (lead : Lead.t)
    (resolvedCustomerId : option string) (score : Z) :
  let n := length (filter (fun l => isSibling lead resolvedCustomerId l = true)
                          (leads db)) in
  (JS.truthy resolvedCustomerId = true \/ Lead.email lead <> "" ->
   scoreSiblings db lead resolvedCustomerId score
   = score + Z.min (3 * Z.of_nat n) 7
   /\ ((3 <= n)%nat ->
       scoreSiblings db lead resolvedCustomerId score = score + 7))
  /\ (JS.truthy resolvedCustomerId = false -> Lead.email lead = "" ->
      scoreSiblings db lead resolvedCustomerId score = score).
Proof.
  intros n. split.
  - intros Hguard.
    assert (JS.truthy resolvedCustomerId || JS.truthy (Some (Lead.email lead))
            = true) as Hg.
    { destruct Hguard as [-> | Hemail]; [done|].
      apply orb_true_iff. right. simpl.
      by rewrite bool_decide_eq_false_2. }
    unfold scoreSiblings. rewrite Hg. cbv zeta. fold n.
    case_bool_decide; split; intros; lia.
  - intros Hrc Hemail. unfold scoreSiblings. by rewrite Hrc, Hemail.
Qed.

Lemma sibling_bonus_saturates_witness :
  scoreSiblings Sample.db1 Sample.customer (Some "c1") 0
  = 0 + Z.min (3 * Z.of_nat
                 (length (filter (fun l => isSibling Sample.customer (Some "c1") l = true)
                                 (leads Sample.db1)))) 7.
Proof.
  apply (sibling_bonus_saturates Sample.db1 Sample.customer (Some "c1") 0).
  left. reflexivity.
Defined.

(** X23: two leads with the same email are siblings even when neither has a
    customer id: a lead whose email, not empty, is that of another stored
    lead gets 3 points or more for it. *)
Theorem shared_email_counts (db : Database) (lead other : Lead.t)
    (resolvedCustomerId : option string) (score : Z) :
  other ∈ leads db ->
  Lead.id other <> Lead.id lead ->
  Lead.email other = Lead.email lead ->
  Lead.email lead <> "" ->
  score + 3 <= scoreSiblings db lead resolvedCustomerId score.
Proof.
  intros Hother Hid Hemail Hnonempty.
  assert (isSibling lead resolvedCustomerId other = true) as Hsib.
  { unfold isSibling.
    rewrite bool_decide_eq_false_2, (bool_decide_eq_true_2 (_ = Lead.email lead))
      by done.
    simpl. apply orb_true_r. }
  pose proof (filter_length_pos
                (fun l => isSibling lead resolvedCustomerId l = true)
                (leads db) other Hother Hsib) as Hpos.
  unfold scoreSiblings. simpl JS.truthy.
  rewrite (bool_decide_eq_false_2 (Lead.email lead = "")), orb_true_r by done.
  cbv zeta. rewrite bool_decide_eq_true_2 by done. lia.
Qed.

Lemma shared_email_counts_witness :
  0 + 3 <= scoreSiblings (mkDatabase [] [Sample.visitor])
             (Lead.set_score 0
                (Sample.lead "l5" "ann@example.com" None None "WEBSITE" "NEW"
                   None None))
             None 0.
Proof.
  apply (shared_email_counts (mkDatabase [] [Sample.visitor]) _ Sample.visitor);
    [left|discriminate|reflexivity|discriminate].
Defined.

(** X24: the conversion bonus never comes alone: a lead that gets the 10 points
    of a converted sibling gets 3 points or more for its siblings. *)
Theorem conversion_implies_repeat (db : Database) (lead : Lead.t)
    (resolvedCustomerId : option string) (score : Z) :
  scoreConverted db lead resolvedCustomerId score = score + 10 ->
  score + 3 <= scoreSiblings db lead resolvedCustomerId score.
Proof.
  intros Hbonus. unfold scoreConverted in Hbonus. unfold scoreSiblings.
  destruct (JS.truthy resolvedCustomerId || _); [|lia].
  cbv zeta in *.
  destruct (existsb _ (leads db)) eqn:Hexists; [|lia].
  apply existsb_exists in Hexists as (l & Hl & Hconv).
  rewrite isConvertedSibling_spec in Hconv.
  apply andb_true_iff in Hconv as [Hsib _].
  apply list_elem_of_In in Hl.
  pose proof (filter_length_pos
                (fun l => isSibling lead resolvedCustomerId l = true)
                (leads db) l Hl Hsib) as Hpos.
  rewrite bool_decide_eq_true_2 by done. lia.
Qed.

Lemma conversion_implies_repeat_witness :
  0 + 3 <= scoreSiblings Sample.db1 Sample.customer (Some "c1") 0.
Proof.
  apply (conversion_implies_repeat Sample.db1 Sample.customer (Some "c1") 0).
  reflexivity.
Defined.

(** ** The products of a wishlist *)

Lemma find_insert_other {A} (f : A -> bool) (before after : list A) (x : A) :
  f x = false -> find f (before ++ x :: after) = find f (before ++ after).
Proof.
  intros Hx. induction before as [|y before IH]; simpl; [by rewrite Hx|].
  by rewrite IH.
Qed.

Lemma fold_left_pointwise_in {A B} (f g : A -> B -> A) (l : list B) (a : A) :
  (forall x y, y ∈ l -> f x y = g x y) -> fold_left f l a = fold_left g l a.
Proof.
  revert a. induction l as [|y l IH]; intros a Hfg; simpl; [done|].
  rewrite Hfg by left. apply IH. intros x z Hz. apply Hfg. by right.
Qed.

(** X25: a product that no item of the wishlist refers to has no part in the
    score: with or without it in the catalogue, anywhere, the total of the
    wishlist and the score are the same. *)
Theorem unreferenced_product_ignored (db : Database)
    (before after : list Product.t) (product : Product.t) (lead : Lead.t)
    (w : Wishlist.t) (customerId : option string) :
  products db = before ++ after ->
  (forall item, item ∈ Wishlist.items w ->
                WishlistItem.productId item <> Product.id product) ->
  wishlistTotal (before ++ product :: after) w = wishlistTotal (before ++ after) w
  /\ calculateLeadScore (mkDatabase (before ++ product :: after) (leads db))
       lead (Some w) customerId
     = calculateLeadScore db lead (Some w) customerId.
Proof.
  intros Hproducts Hitems.
  assert (wishlistTotal (before ++ product :: after) w
          = wishlistTotal (before ++ after) w) as Htotal.
  { unfold wishlistTotal. apply fold_left_pointwise_in.
    intros total item Hitem. cbv zeta.
    rewrite find_insert_other; [done|].
    apply bool_decide_eq_false_2. intros Heq. by apply (Hitems item). }
  split; [done|].
  unfold calculateLeadScore, scoreWishlist. simpl products.
  by rewrite Htotal, Hproducts.
Qed.

Lemma unreferenced_product_ignored_witness :
  wishlistTotal (Sample.ring :: Sample.necklace :: [Sample.bracelet])
    Sample.wishlist3
  = wishlistTotal ([Sample.ring] ++ [Sample.bracelet]) Sample.wishlist3
  /\ calculateLeadScore
       (mkDatabase ([Sample.ring] ++ Sample.necklace :: [Sample.bracelet])
          (leads (mkDatabase [Sample.ring; Sample.bracelet] [])))
       Sample.visitor (Some Sample.wishlist3) None
     = calculateLeadScore (mkDatabase [Sample.ring; Sample.bracelet] [])
         Sample.visitor (Some Sample.wishlist3) None.
Proof.
  apply (unreferenced_product_ignored
           (mkDatabase [Sample.ring; Sample.bracelet] [])
           [Sample.ring] [Sample.bracelet] Sample.necklace Sample.visitor
           Sample.wishlist3 None); [reflexivity|].
  intros item Hitem. unfold Sample.wishlist3 in Hitem; simpl in Hitem.
  repeat (apply elem_of_cons in Hitem as [-> | Hitem]; [discriminate|]).
  by apply elem_of_nil in Hitem.
Defined.
